(** * An image annotation editor: the session state machine of [main.py]

    The program is a Streamlit script.  Every user interaction re-runs the
    script from the top against a persistent [st.session_state]; the widgets
    return the values the user has given them.  The development models

    - the session state as a record of the keys the script initialises,
      together with the two keys it only ever reads through [.get];
    - one run of the script as a computation in a state, output and
      exception monad, the widget values of the run being its input;
    - figures as the list of artists the script adds to the axes;
    - Python floats as IEEE 754 binary64 numbers ([SpecFloat]).

    External collaborators (Pillow, rembg, [os.path]) are an interface. *)

From Stdlib Require Import ZArith List String Ascii Bool SpecFloat DecimalString Lia.
Import ListNotations.
Local Open Scope string_scope.
Local Open Scope Z_scope.

(** ** Python exceptions and results *)

(** The script catches with [except Exception].  Streamlit's rerun request is
    delivered as an exception outside that class, so no handler of the script
    stops it. *)
Inductive exn : Type :=
| Exception (msg : string)
| RerunException.

(** A call that returns or raises an [Exception] whose [str] is [msg]. *)
Inductive result (A : Type) : Type :=
| Returns (a : A)
| Raises (msg : string).
Arguments Returns {A} a.
Arguments Raises {A} msg.

Definition result_bind {A B : Type} (r : result A) (k : A -> result B) : result B :=
  match r with
  | Returns a => k a
  | Raises msg => Raises msg
  end.

Declare Scope result_scope.
Delimit Scope result_scope with result.
Notation "x <-? r ;; k" := (result_bind r (fun x => k))
  (at level 61, r at next level, right associativity) : result_scope.

(** How a computation of the script ends. *)
Inductive outcome (A : Type) : Type :=
| Ok (a : A)
| Raised (e : exn).
Arguments Ok {A} a.
Arguments Raised {A} e.

(** ** Numbers and their formatting *)

(** [str(n)] for an int. *)
Definition str_int (n : Z) : string := NilZero.string_of_int (Z.to_int n).

(** Python's float is binary64. *)
Definition prec : Z := 53.
Definition emax : Z := 1024.
Definition float : Type := spec_float.

(** [m * 2 ** e] rounded to the nearest float, ties to even.  Both int to float
    conversion and int true division round this way and raise [OverflowError]
    past the largest float. *)
Definition nearest_float (m e : Z) : float := binary_normalize prec emax m e false.

Definition is_infinite (x : float) : bool :=
  match x with
  | S754_infinity _ => true
  | _ => false
  end.

(** [float(n)], as [n ** 0.5] converts its base. *)
Definition int_to_float (n : Z) : result float :=
  let x := nearest_float n 0 in
  if is_infinite x then Raises "int too large to convert to float" else Returns x.

(** [n / 2] for an int [n]. *)
Definition true_div_2 (n : Z) : result float :=
  let x := nearest_float n (-1) in
  if is_infinite x then Raises "integer division result too large for a float"
  else Returns x.

(** [n ** 0.5] for an int [n >= 0]: the square root of [float(n)], correctly
    rounded. *)
Definition pow_half (n : Z) : result float :=
  (x <-? int_to_float n ;; Returns (SFsqrt prec emax x))%result.

(** [num / den] rounded to the nearest integer, ties to even ([0 < den]). *)
Definition round_half_even (num den : Z) : Z :=
  let q := num / den in
  match 2 * (num mod den) ?= den with
  | Lt => q
  | Eq => if Z.even q then q else q + 1
  | Gt => q + 1
  end.

(** The number of tenths nearest to [m * 2 ** e]. *)
Definition tenths (m : positive) (e : Z) : Z :=
  if 0 <=? e then 10 * Z.pos m * 2 ^ e
  else round_half_even (10 * Z.pos m) (2 ^ (- e)).

Definition sign_str (s : bool) : string := if s then "-" else "".

(** [f"{x:.1f}"]: the decimal with one fractional digit nearest to the exact
    value of [x]. *)
Definition format_1f (x : float) : string :=
  match x with
  | S754_zero s => sign_str s ++ "0.0"
  | S754_infinity s => sign_str s ++ "inf"
  | S754_nan => "nan"
  | S754_finite s m e =>
      let t := tenths m e in
      sign_str s ++ str_int (t / 10) ++ "." ++ str_int (t mod 10)
  end.

(** The label [f"{n ** 0.5:.1f} px"] of a squared distance [n]; [None] when
    the conversion to float overflows. *)
Definition computed_label (n : Z) : option string :=
  match pow_half n with
  | Returns x => Some (format_1f x ++ " px")
  | Raises _ => None
  end.

(** The distance label in the spec's words: the tenth nearest to the square
    root of [n], written with one decimal and [" px"].  [nearest_tenth n] is
    the integer [t] with [|t/10 - sqrt n| <= 1/20]. *)
Definition nearest_tenth (n : Z) : Z := (Z.sqrt (400 * n) + 1) / 2.

Definition distance_label (n : Z) : string :=
  let t := nearest_tenth n in
  (str_int (t / 10) ++ "." ++ str_int (t mod 10)) ++ " px".

(** ** External collaborators *)

(** Pillow's images and the calls the script makes on them, rembg's [remove]
    and [os.path.splitext].  [Image_open], [remove] and [save_png] can raise. *)
Class Collaborators : Type := {
  Image : Type;
  UploadedFile : Type;
  PngData : Type;
  file_name : UploadedFile -> string;
  Image_open : UploadedFile -> result Image;
  mode : Image -> string;
  convert : string -> Image -> Image;
  copy : Image -> Image;
  image_width : Image -> Z;
  image_height : Image -> Z;
  remove : Image -> result Image;
  save_png : Image -> result PngData;
  splitext : string -> string * string
}.

(** ** Data *)

(** The three options of the "Annotation Tools:" radio. *)
Inductive Tool : Type := select | line | measure.

Definition Tool_eqb (a b : Tool) : bool :=
  match a, b with
  | select, select | line, line | measure, measure => true
  | _, _ => false
  end.

(** The dictionary appended to [st.session_state.drawings]. *)
Record Drawing : Type := {
  type : string;
  x0 : Z;
  y0 : Z;
  x1 : Z;
  y1 : Z;
  color : string;
  width : Z;
  measure_flag : bool
}.

Section State.
Context {C : Collaborators}.

(** What the script adds to the axes of a figure.  [text] is always drawn at
    font size 12 on a white box. *)
Inductive Artist : Type :=
| imshow (img : Image)
| axis_off
| Line2D (xdata ydata : Z * Z) (line_color : string) (linewidth : Z)
| text (x y : float) (s : string) (text_color : string) (fontsize : Z).

Record Figure : Type := {
  figsize : option (Z * Z);
  artists : list Artist
}.

(** The bytes handed to a download button: a figure saved as PNG at some dpi,
    or an image saved as PNG. *)
Inductive Buffer : Type :=
| savefig (fig : Figure) (dpi : Z)
| image_bytes (data : PngData).

(** What a run shows on the page. *)
Inductive Output : Type :=
| st_error (msg : string)
| st_success (msg : string)
| sidebar_image (img : Image) (caption : string)
| st_pyplot (fig : Figure)
| download_button (label : string) (data : Buffer) (name : string) (mime : string).

(** [st.session_state].  The first eight keys are the ones the script
    initialises; ['color'] and ['line_width'] are only read, with a default,
    so they may be absent. *)
Record SessionState : Type := {
  drawings : list Drawing;
  current_tool : Tool;
  bg_removed_image : option Image;
  original_image : option Image;
  active_image : option Image;
  start_point : option (Z * Z);
  fig_key : option Figure;
  original_filename : option string;
  color_key : option string;
  line_width_key : option Z
}.

(** The values the widgets return during one run. *)
Record Widgets : Type := {
  file_uploader : option UploadedFile;
  remove_background_button : bool;
  annotation_tools_radio : Tool;
  color_picker : string;
  line_width_slider : Z;
  clear_all_button : bool;
  x_slider : Z;
  y_slider : Z;
  add_point_button : bool;
  save_button : bool
}.

(** Assignments to single keys. *)
Definition set_drawings (v : list Drawing) (s : SessionState) : SessionState :=
  {| drawings := v; current_tool := current_tool s;
     bg_removed_image := bg_removed_image s; original_image := original_image s;
     active_image := active_image s; start_point := start_point s;
     fig_key := fig_key s; original_filename := original_filename s;
     color_key := color_key s; line_width_key := line_width_key s |}.

Definition set_current_tool (v : Tool) (s : SessionState) : SessionState :=
  {| drawings := drawings s; current_tool := v;
     bg_removed_image := bg_removed_image s; original_image := original_image s;
     active_image := active_image s; start_point := start_point s;
     fig_key := fig_key s; original_filename := original_filename s;
     color_key := color_key s; line_width_key := line_width_key s |}.

Definition set_bg_removed_image (v : option Image) (s : SessionState) : SessionState :=
  {| drawings := drawings s; current_tool := current_tool s;
     bg_removed_image := v; original_image := original_image s;
     active_image := active_image s; start_point := start_point s;
     fig_key := fig_key s; original_filename := original_filename s;
     color_key := color_key s; line_width_key := line_width_key s |}.

Definition set_original_image (v : option Image) (s : SessionState) : SessionState :=
  {| drawings := drawings s; current_tool := current_tool s;
     bg_removed_image := bg_removed_image s; original_image := v;
     active_image := active_image s; start_point := start_point s;
     fig_key := fig_key s; original_filename := original_filename s;
     color_key := color_key s; line_width_key := line_width_key s |}.

Definition set_active_image (v : option Image) (s : SessionState) : SessionState :=
  {| drawings := drawings s; current_tool := current_tool s;
     bg_removed_image := bg_removed_image s; original_image := original_image s;
     active_image := v; start_point := start_point s;
     fig_key := fig_key s; original_filename := original_filename s;
     color_key := color_key s; line_width_key := line_width_key s |}.

Definition set_start_point (v : option (Z * Z)) (s : SessionState) : SessionState :=
  {| drawings := drawings s; current_tool := current_tool s;
     bg_removed_image := bg_removed_image s; original_image := original_image s;
     active_image := active_image s; start_point := v;
     fig_key := fig_key s; original_filename := original_filename s;
     color_key := color_key s; line_width_key := line_width_key s |}.

Definition set_fig (v : option Figure) (s : SessionState) : SessionState :=
  {| drawings := drawings s; current_tool := current_tool s;
     bg_removed_image := bg_removed_image s; original_image := original_image s;
     active_image := active_image s; start_point := start_point s;
     fig_key := v; original_filename := original_filename s;
     color_key := color_key s; line_width_key := line_width_key s |}.

Definition set_original_filename (v : option string) (s : SessionState) : SessionState :=
  {| drawings := drawings s; current_tool := current_tool s;
     bg_removed_image := bg_removed_image s; original_image := original_image s;
     active_image := active_image s; start_point := start_point s;
     fig_key := fig_key s; original_filename := v;
     color_key := color_key s; line_width_key := line_width_key s |}.

(** The state a fresh session gets from the initialisation at the top of the
    script. *)
Definition initial_session_state : SessionState :=
  {| drawings := []; current_tool := select;
     bg_removed_image := None; original_image := None;
     active_image := None; start_point := None;
     fig_key := None; original_filename := None;
     color_key := None; line_width_key := None |}.

(** ** The monad of a script run *)

(** What a computation leaves: its outcome, the session state (assignments made
    before an exception stay), and what it showed. *)
Record Run (A : Type) : Type := mkRun {
  res : outcome A;
  st : SessionState;
  out : list Output
}.
Arguments mkRun {A} res st out.
Arguments res {A} r.
Arguments st {A} r.
Arguments out {A} r.

Definition M (A : Type) : Type := SessionState -> Run A.

Definition ret {A : Type} (a : A) : M A := fun s => mkRun (Ok a) s [].

Definition bind {A B : Type} (m : M A) (k : A -> M B) : M B := fun s =>
  let r := m s in
  match res r with
  | Ok a => let r' := k a (st r) in mkRun (res r') (st r') (out r ++ out r')%list
  | Raised e => mkRun (Raised e) (st r) (out r)
  end.

Definition get : M SessionState := fun s => mkRun (Ok s) s [].

Definition modify (f : SessionState -> SessionState) : M unit :=
  fun s => mkRun (Ok tt) (f s) [].

Definition emit (o : Output) : M unit := fun s => mkRun (Ok tt) s [o].

Definition raise {A : Type} (e : exn) : M A := fun s => mkRun (Raised e) s [].

(** A call of a collaborator or of a pure computation that can raise. *)
Definition call {A : Type} (r : result A) : M A :=
  match r with
  | Returns a => ret a
  | Raises msg => raise (Exception msg)
  end.

(** [try: body  except Exception as e: handler(str(e))]. *)
Definition try_except {A : Type} (body : M A) (handler : string -> M A) : M A := fun s =>
  let r := body s in
  match res r with
  | Raised (Exception msg) =>
      let r' := handler msg (st r) in mkRun (res r') (st r') (out r ++ out r')%list
  | _ => r
  end.

End State.

Arguments mkRun {C A} res st out.
Arguments res {C A} r.
Arguments st {C A} r.
Arguments out {C A} r.

Declare Scope run_scope.
Delimit Scope run_scope with run.
Notation "x <- m ;; k" := (bind m (fun x => k))
  (at level 61, m at next level, right associativity) : run_scope.
Notation "m ;; k" := (bind m (fun _ => k))
  (at level 61, right associativity) : run_scope.
Local Open Scope run_scope.

(** ** The script *)

Section Program.
Context {C : Collaborators}.

(** [verify_and_convert_image]: open the upload and convert the modes
    ['RGBA'], ['LA'] and ['P'] to ['RGB']; [None] after an error message when
    the file does not open. *)
Definition verify_and_convert_image (uploaded_file : UploadedFile) : M (option Image) :=
  try_except
    (image <- call (Image_open uploaded_file) ;;
     let image :=
       if existsb (String.eqb (mode image)) ["RGBA"; "LA"; "P"]
       then convert "RGB" image else image in
     ret (Some image))
    (fun e => emit (st_error ("Invalid image file: " ++ e)) ;; ret None).

(** The [plt.Line2D] of a drawing. *)
Definition line_of (drawing : Drawing) : Artist :=
  Line2D (x0 drawing, x1 drawing) (y0 drawing, y1 drawing)
         (color drawing) (width drawing).

(** The sum of squares under the root of the distance. *)
Definition squared_distance (drawing : Drawing) : Z :=
  (x1 drawing - x0 drawing) ^ 2 + (y1 drawing - y0 drawing) ^ 2.

(** The measurement text of a drawing: at the midpoint, the distance with one
    decimal and [" px"]. *)
Definition measurement_text (drawing : Drawing) : result Artist :=
  (mid_x <-? true_div_2 (x0 drawing + x1 drawing) ;;
   mid_y <-? true_div_2 (y0 drawing + y1 drawing) ;;
   distance <-? pow_half (squared_distance drawing) ;;
   Returns (text mid_x mid_y (format_1f distance ++ " px") (color drawing) 12))%result.

(** The loop of [display_image_with_drawing_tools] over the drawings. *)
Fixpoint draw_existing_annotations (ds : list Drawing) : result (list Artist) :=
  match ds with
  | [] => Returns []
  | drawing :: rest =>
      (here <-? (if (type drawing =? "line")%string then
                   if measure_flag drawing then
                     (t <-? measurement_text drawing ;;
                      Returns [line_of drawing; t])
                   else Returns [line_of drawing]
                 else Returns []) ;;
       later <-? draw_existing_annotations rest ;;
       Returns (here ++ later)%list)%result
  end.

(** The loop of [get_annotated_image] over the drawings. *)
Fixpoint redraw_all_annotations (ds : list Drawing) : list Artist :=
  match ds with
  | [] => []
  | drawing :: rest =>
      ((if (type drawing =? "line")%string then [line_of drawing] else [])
         ++ redraw_all_annotations rest)%list
  end.

(** [ax.imshow(st.session_state.active_image)]; it raises on [None]. *)
Definition ax_imshow (image : option Image) : result Artist :=
  match image with
  | Some img => Returns (imshow img)
  | None => Raises "Image data of dtype object cannot be converted to float"
  end.

(** The figure [display_image_with_drawing_tools] hands to [st.pyplot]. *)
Definition display_figure (s : SessionState) : result Figure :=
  (im <-? ax_imshow (active_image s) ;;
   annotations <-? draw_existing_annotations (drawings s) ;;
   Returns {| figsize := Some (10, 10);
              artists := im :: axis_off :: annotations |})%result.

(** The figure [get_annotated_image] saves. *)
Definition export_figure (s : SessionState) : result Figure :=
  (im <-? ax_imshow (active_image s) ;;
   Returns {| figsize := None;
              artists := im :: axis_off :: redraw_all_annotations (drawings s) |})%result.

(** [handle_point_addition]. *)
Definition handle_point_addition (x y : Z) : M unit :=
  s <- get ;;
  if existsb (Tool_eqb (current_tool s)) [line; measure] then
    match start_point s with
    | None =>
        modify (set_start_point (Some (x, y))) ;;
        emit (st_success ("Start point set at (" ++ str_int x ++ ", " ++ str_int y ++ ")"))
    | Some (x0, y0) =>
        modify (fun s =>
          set_drawings
            (drawings s ++
             [{| type := "line"; x0 := x0; y0 := y0; x1 := x; y1 := y;
                 color := match color_key s with Some c => c | None => "#FF0000" end;
                 width := match line_width_key s with Some w => w | None => 2 end;
                 measure_flag := Tool_eqb (current_tool s) measure |}])%list s) ;;
        modify (set_start_point None) ;;
        raise RerunException
    end
  else ret tt.

(** [display_image_with_drawing_tools]. *)
Definition display_image_with_drawing_tools (w : Widgets) : M unit :=
  try_except
    (s <- get ;;
     fig <- call (display_figure s) ;;
     emit (st_pyplot fig) ;;
     let x := x_slider w in
     let y := y_slider w in
     if add_point_button w then handle_point_addition x y else ret tt)
    (fun e => emit (st_error ("Display error: " ++ e))).

(** [get_annotated_image]. *)
Definition get_annotated_image : M (option Buffer) :=
  try_except
    (s <- get ;;
     fig <- call (export_figure s) ;;
     ret (Some (savefig fig 300)))
    (fun e => emit (st_error ("Error generating annotated image: " ++ e)) ;; ret None).

(** [reset_session_state]. *)
Definition reset_session_state : M unit :=
  modify (set_drawings []) ;;
  modify (set_current_tool select) ;;
  modify (set_bg_removed_image None) ;;
  modify (set_original_image None) ;;
  modify (set_active_image None) ;;
  modify (set_start_point None) ;;
  modify (set_fig None).

(** The parts of [main], in the order they run. *)

(** Lines 44 to 50: the upload becomes the original and the active image. *)
Definition load_image (uploaded_file : UploadedFile) (image : Image) : M unit :=
  modify (set_original_filename (Some (fst (splitext (file_name uploaded_file))))) ;;
  modify (set_original_image (Some image)) ;;
  modify (set_active_image (Some (copy image))) ;;
  emit (sidebar_image image "Original Image").

(** Lines 53 to 62: the "Remove Background" button. *)
Definition remove_background (image : Image) : M unit :=
  try_except
    (bg <- call (remove image) ;;
     modify (set_bg_removed_image (Some bg)) ;;
     s <- get ;;
     modify (set_active_image (bg_removed_image s)) ;;
     emit (sidebar_image bg "Background Removed"))
    (fun e => emit (st_error ("Background removal failed: " ++ e))).

(** Lines 65 to 69: the radio's value becomes the current tool. *)
Definition tool_selection (w : Widgets) : M unit :=
  modify (set_current_tool (annotation_tools_radio w)).

(** Lines 74 to 76: the "Clear All Annotations" button. *)
Definition clear_all_annotations : M unit :=
  modify (set_drawings []) ;;
  modify (set_start_point None).

(** Lines 82 to 103: the two download buttons. *)
Definition download_buttons (w : Widgets) : M unit :=
  (if save_button w then
     img_bytes <- get_annotated_image ;;
     match img_bytes with
     | Some buf =>
         emit (download_button "Download Annotated Image" buf
                               "annotated_image.png" "image/png")
     | None => ret tt
     end
   else ret tt) ;;
  s <- get ;;
  match bg_removed_image s with
  | Some bg =>
      buffered <- call (save_png bg) ;;
      emit (download_button "Download BG-Removed Image" (image_bytes buffered)
              (match original_filename s with Some n => n | None => "None" end
               ++ "_bg_removed.png")
              "image/png")
  | None => ret tt
  end.

(** The [try] block of [main]. *)
Definition process_upload (w : Widgets) (uploaded_file : UploadedFile) : M unit :=
  image <- verify_and_convert_image uploaded_file ;;
  match image with
  | None => emit (st_error "Invalid image file")
  | Some image =>
      load_image uploaded_file image ;;
      (if remove_background_button w then remove_background image else ret tt) ;;
      tool_selection w ;;
      let color := color_picker w in
      let line_width := line_width_slider w in
      (if clear_all_button w then clear_all_annotations else ret tt) ;;
      display_image_with_drawing_tools w ;;
      download_buttons w
  end.

(** [main]: one run of the script with the widget values [w]. *)
Definition main (w : Widgets) : M unit :=
  match file_uploader w with
  | None => ret tt
  | Some uploaded_file =>
      try_except
        (process_upload w uploaded_file)
        (fun e => emit (st_error ("Error processing image: " ++ e)) ;;
                  reset_session_state)
  end.

(** A button is down only during the run its click starts. *)
Definition release_buttons (w : Widgets) : Widgets :=
  {| file_uploader := file_uploader w;
     remove_background_button := false;
     annotation_tools_radio := annotation_tools_radio w;
     color_picker := color_picker w;
     line_width_slider := line_width_slider w;
     clear_all_button := false;
     x_slider := x_slider w;
     y_slider := y_slider w;
     add_point_button := false;
     save_button := false |}.

(** One user interaction: a run of the script, and the run that follows at
    once when the first one asks for a rerun. *)
Definition interaction (w : Widgets) (s : SessionState) : SessionState :=
  let r := main w s in
  match res r with
  | Raised RerunException => st (main (release_buttons w) (st r))
  | _ => st r
  end.

(** A session: the interactions in order, from the left. *)
Definition session (ws : list Widgets) (s : SessionState) : SessionState :=
  fold_left (fun s w => interaction w s) ws s.

End Program.

(** ** A sample of the collaborators

    Images reduced to their mode, their size and whether they show a subject,
    for running the script on concrete inputs. *)
Module Sample.

Record image : Type := {
  image_mode : string;
  image_size : Z * Z;
  image_subject : bool
}.

Record upload : Type := { upload_name : string; upload_content : option image }.

Definition open (f : upload) : result image :=
  match upload_content f with
  | Some im => Returns im
  | None => Raises "cannot identify image file"
  end.

Definition with_mode (m : string) (im : image) : image :=
  {| image_mode := m; image_size := image_size im; image_subject := image_subject im |}.

(** Background removal gives an RGBA image of the same size; it fails on an
    image in which it finds no subject. *)
Definition remove_bg (im : image) : result image :=
  if image_subject im then Returns (with_mode "RGBA" im) else Raises "no subject found".

(** Saving as PNG fails on a CMYK image. *)
Definition save (im : image) : result image :=
  if (image_mode im =? "CMYK")%string then Raises "cannot write mode CMYK as PNG"
  else Returns im.

(** The name up to its last dot, and the rest. *)
Fixpoint split_last_dot (name : string) : option (string * string) :=
  match name with
  | EmptyString => None
  | String c rest =>
      match split_last_dot rest with
      | Some (root, ext) => Some (String c root, ext)
      | None => if Ascii.eqb c "."%char then Some (EmptyString, name) else None
      end
  end.

Definition split_ext (name : string) : string * string :=
  match split_last_dot name with
  | Some p => p
  | None => (name, EmptyString)
  end.

#[local] Instance collaborators : Collaborators :=
  {| Image := image;
     UploadedFile := upload;
     PngData := image;
     file_name := upload_name;
     Image_open := open;
     mode := image_mode;
     convert := with_mode;
     copy := fun im => im;
     image_width := fun im => fst (image_size im);
     image_height := fun im => snd (image_size im);
     remove := remove_bg;
     save_png := save;
     splitext := split_ext |}.

(** A 640 by 480 RGB photograph. *)
Definition photo_image : image :=
  {| image_mode := "RGB"; image_size := (640, 480); image_subject := true |}.

Definition photo : upload :=
  {| upload_name := "photo.png"; upload_content := Some photo_image |}.

(** A picture of a plain wall: nothing for background removal to keep. *)
Definition wall_image : image :=
  {| image_mode := "RGB"; image_size := (640, 480); image_subject := false |}.

Definition wall : upload :=
  {| upload_name := "wall.jpg"; upload_content := Some wall_image |}.

(** A CMYK picture for print, which does not save as PNG. *)
Definition print_image : image :=
  {| image_mode := "CMYK"; image_size := (300, 300); image_subject := true |}.

Definition print : upload :=
  {| upload_name := "print.jpg"; upload_content := Some print_image |}.

(** A file that is not an image. *)
Definition broken : upload :=
  {| upload_name := "notes.png"; upload_content := None |}.

(** A 200 by 100 scan with a palette. *)
Definition scan_image : image :=
  {| image_mode := "P"; image_size := (200, 100); image_subject := true |}.

Definition scan : upload :=
  {| upload_name := "scan.png"; upload_content := Some scan_image |}.

(** The widgets of a run with [f] uploaded, the radio on [tool], the colour
    picker on [c], the width slider on [lw], and no button down. *)
Definition page (f : upload) (tool : Tool) (c : string) (lw : Z) : Widgets :=
  {| file_uploader := Some f;
     remove_background_button := false;
     annotation_tools_radio := tool;
     color_picker := c;
     line_width_slider := lw;
     clear_all_button := false;
     x_slider := 320;
     y_slider := 240;
     add_point_button := false;
     save_button := false |}.

(** The user moves the sliders to [(x, y)] and presses "Add Point". *)
Definition add_point (w : Widgets) (x y : Z) : Widgets :=
  {| file_uploader := file_uploader w;
     remove_background_button := false;
     annotation_tools_radio := annotation_tools_radio w;
     color_picker := color_picker w;
     line_width_slider := line_width_slider w;
     clear_all_button := false;
     x_slider := x;
     y_slider := y;
     add_point_button := true;
     save_button := false |}.

(** The user presses "Save Image with Annotations". *)
Definition save_image (w : Widgets) : Widgets :=
  {| file_uploader := file_uploader w;
     remove_background_button := false;
     annotation_tools_radio := annotation_tools_radio w;
     color_picker := color_picker w;
     line_width_slider := line_width_slider w;
     clear_all_button := false;
     x_slider := x_slider w;
     y_slider := y_slider w;
     add_point_button := false;
     save_button := true |}.

(** The user presses "Remove Background". *)
Definition remove_bg_click (w : Widgets) : Widgets :=
  {| file_uploader := file_uploader w;
     remove_background_button := true;
     annotation_tools_radio := annotation_tools_radio w;
     color_picker := color_picker w;
     line_width_slider := line_width_slider w;
     clear_all_button := false;
     x_slider := x_slider w;
     y_slider := y_slider w;
     add_point_button := false;
     save_button := false |}.

(** The user presses "Clear All Annotations". *)
Definition clear_click (w : Widgets) : Widgets :=
  {| file_uploader := file_uploader w;
     remove_background_button := false;
     annotation_tools_radio := annotation_tools_radio w;
     color_picker := color_picker w;
     line_width_slider := line_width_slider w;
     clear_all_button := true;
     x_slider := x_slider w;
     y_slider := y_slider w;
     add_point_button := false;
     save_button := false |}.

(** A measurement from (0, 0) to (3, 4) on the photograph. *)
Definition measured : SessionState :=
  session [add_point (page photo measure "#FF0000" 2) 0 0;
           add_point (page photo measure "#FF0000" 2) 3 4]
          initial_session_state.

(** A line from (1, 1) to (2, 2) on the photograph and a gesture started at
    (5, 5). *)
Definition in_progress : SessionState :=
  session [add_point (page photo line "#FF0000" 2) 1 1;
           add_point (page photo line "#FF0000" 2) 2 2;
           add_point (page photo line "#FF0000" 2) 5 5]
          initial_session_state.

(** A session whose background-removed image is the CMYK picture. *)
Definition removed : SessionState :=
  set_bg_removed_image (Some print_image) initial_session_state.

(** A session in which the background of the photograph was removed. *)
Definition cut_out : SessionState :=
  session [remove_bg_click (page photo select "#FF0000" 2)] initial_session_state.

(** The same, with the radio back on select. *)
Definition in_progress_select : SessionState :=
  session [page photo select "#FF0000" 2] in_progress.

End Sample.

(** ** Pillow's modes

    The modes that carry an alpha channel, the modes whose pixels index a
    palette, and the modes Pillow's PNG and JPEG readers give an opened file
    (the uploader accepts [jpg], [jpeg] and [png]). *)
Definition alpha_modes : list string := ["LA"; "La"; "PA"; "RGBA"; "RGBa"].
Definition palette_modes : list string := ["P"; "PA"].
Definition upload_modes : list string :=
  ["1"; "L"; "LA"; "I"; "I;16"; "P"; "RGB"; "RGBA"; "CMYK"].

Definition has_alpha_channel (m : string) : bool := existsb (String.eqb m) alpha_modes.
Definition has_palette (m : string) : bool := existsb (String.eqb m) palette_modes.

(** ** The events of the annotation store

    The script changes the annotations in three places: the assignment of the
    radio's value to the current tool, [handle_point_addition], and the
    "Clear All Annotations" block. *)
Section Events.
Context {C : Collaborators}.

Inductive Event : Type :=
| SetTool (tool : Tool)
| SubmitPoint (x y : Z)
| ClearAll.

Definition step (s : SessionState) (e : Event) : SessionState :=
  match e with
  | SetTool tool => st (modify (set_current_tool tool) s)
  | SubmitPoint x y => st (handle_point_addition x y s)
  | ClearAll => st (clear_all_annotations s)
  end.

Definition steps (es : list Event) (s : SessionState) : SessionState :=
  fold_left step es s.

(** The number of points an event list submits. *)
Fixpoint submissions (es : list Event) : nat :=
  match es with
  | [] => 0
  | SubmitPoint _ _ :: rest => S (submissions rest)
  | _ :: rest => submissions rest
  end.

(** An event that keeps the tool on line or measure and clears nothing. *)
Definition drawing_event (e : Event) : bool :=
  match e with
  | SetTool select => false
  | SetTool _ => true
  | SubmitPoint _ _ => true
  | ClearAll => false
  end.

(** The drawing a second point completes. *)
Definition completed (s : SessionState) (p0 p1 : Z * Z) : Drawing :=
  {| type := "line";
     x0 := fst p0; y0 := snd p0; x1 := fst p1; y1 := snd p1;
     color := match color_key s with Some c => c | None => "#FF0000" end;
     width := match line_width_key s with Some w => w | None => 2 end;
     measure_flag := Tool_eqb (current_tool s) measure |}.

(** The points waiting for their partner: one when a start point is set. *)
Definition pending (s : SessionState) : nat :=
  match start_point s with
  | Some _ => 1
  | None => 0
  end.

(** The tool changes and idle submissions that leave a gesture waiting: any
    tool choice, and any submission made right after choosing select. *)
Inductive waiting_event : Type :=
| Choose (tool : Tool)
| SubmitWhileSelect (x y : Z).

Definition waiting (we : waiting_event) : list Event :=
  match we with
  | Choose tool => [SetTool tool]
  | SubmitWhileSelect x y => [SetTool select; SubmitPoint x y]
  end.

(** What a run keeps: [preserves I m] when [m] takes states in [I] to states
    in [I], however it ends. *)
Definition preserves {A : Type} (I : SessionState -> Prop) (m : M A) : Prop :=
  forall s, I s -> I (st (m s)).

(** The style a drawing gets when the session has no colour and no width. *)
Definition default_style (d : Drawing) : Prop :=
  color d = "#FF0000" /\ width d = 2.

(** No colour, no width, and every drawing in the default style. *)
Definition unstyled (s : SessionState) : Prop :=
  color_key s = None /\ line_width_key s = None /\ Forall default_style (drawings s).

(** A point with both coordinates from 0 to [B], as the sliders of an image
    at most [B] wide and high give it. *)
Definition within (B : Z) (p : Z * Z) : Prop :=
  0 <= fst p <= B /\ 0 <= snd p <= B.

(** Every drawing and the start point lie within [B]. *)
Definition drawn_within (B : Z) (s : SessionState) : Prop :=
  Forall (fun d => within B (x0 d, y0 d) /\ within B (x1 d, y1 d)) (drawings s) /\
  match start_point s with
  | Some p => within B p
  | None => True
  end.

(** The measurement labels among the artists. *)
Definition is_text (a : Artist) : bool :=
  match a with
  | text _ _ _ _ _ => true
  | _ => false
  end.

(** The image [verify_and_convert_image] returns for an opened image. *)
Definition verified (im : Image) : Image :=
  if existsb (String.eqb (mode im)) ["RGBA"; "LA"; "P"] then convert "RGB" im else im.

(** The session state after lines 44 to 69 of a run: the upload loaded and
    the radio's value assigned. *)
Definition loaded (w : Widgets) (f : UploadedFile) (im : Image) (s : SessionState)
  : SessionState :=
  set_current_tool (annotation_tools_radio w)
    (set_active_image (Some (copy (verified im)))
       (set_original_image (Some (verified im))
          (set_original_filename (Some (fst (splitext (file_name f)))) s))).

(** Lines 44 to 76 of [main], the part of the [try] block before the display:
    loading, background removal, tool selection and clearing. *)
Definition upload_prelude (w : Widgets) (f : UploadedFile) (image : Image) : M unit :=
  load_image f image ;;
  (if remove_background_button w then remove_background image else ret tt) ;;
  tool_selection w ;;
  (if clear_all_button w then clear_all_annotations else ret tt).

(** The session state the display block of a run starts from. *)
Definition before_display (w : Widgets) (f : UploadedFile) (im : Image)
    (s : SessionState) : SessionState :=
  st (upload_prelude w f (verified im) s).

(** The widgets of a click on "Add Point" alone. *)
Definition add_point_press (w : Widgets) : Prop :=
  remove_background_button w = false /\
  clear_all_button w = false /\
  add_point_button w = true.

(** The same widgets with the "Save Image with Annotations" button as [b]. *)
Definition set_save_button (b : bool) (w : Widgets) : Widgets :=
  {| file_uploader := file_uploader w;
     remove_background_button := remove_background_button w;
     annotation_tools_radio := annotation_tools_radio w;
     color_picker := color_picker w;
     line_width_slider := line_width_slider w;
     clear_all_button := clear_all_button w;
     x_slider := x_slider w;
     y_slider := y_slider w;
     add_point_button := add_point_button w;
     save_button := b |}.

(** Without an active image there is nothing else in the session. *)
Definition blank_without_image (s : SessionState) : Prop :=
  active_image s = None ->
  drawings s = [] /\ start_point s = None /\
  original_image s = None /\ bg_removed_image s = None /\
  current_tool s = select.

(** Every drawing has the type ['line']. *)
Definition all_lines (s : SessionState) : Prop :=
  Forall (fun d => type d = "line") (drawings s).

End Events.

(** * Properties *)

(** ** Floats: the label of a distance

    For a squared distance below [2 ^ 44] the float computation
    [f"{n ** 0.5:.1f}"] gives the decimal nearest to the real square root. *)

(** *** The float computation on some inputs *)

Example computed_label_25 : computed_label 25 = Some "5.0 px".
Proof. reflexivity. Qed.

Example computed_label_2 : computed_label 2 = Some "1.4 px".
Proof. reflexivity. Qed.

Example computed_label_99 : computed_label 99 = Some "9.9 px".
Proof. reflexivity. Qed.

Example computed_label_0 : computed_label 0 = Some "0.0 px".
Proof. reflexivity. Qed.

(** Halves round to the even tenth, as the value of the float decides. *)
Example format_1f_quarter : format_1f (nearest_float 1 (-2)) = "0.2".
Proof. reflexivity. Qed.

Example format_1f_three_quarters : format_1f (nearest_float (-3) (-2)) = "-0.8".
Proof. reflexivity. Qed.

(** An int past the largest float does not convert. *)
Example computed_label_overflow : computed_label (2 ^ 1024) = None.
Proof. vm_compute. reflexivity. Qed.

(** Far beyond images, the float square root is too coarse: for two points
    ten million pixels apart the label is a tenth above the nearest tenth of
    the real square root. *)
Theorem float_label_differs_far_out :
  computed_label 100000001000000 = Some "10000000.1 px" /\
  distance_label 100000001000000 = "10000000.0 px" /\
  2 ^ 46 < 100000001000000 < 2 ^ 47.
Proof. vm_compute. repeat split; reflexivity. Qed.

(** *** Rounding to tenths *)

Lemma round_half_even_near (a K : Z) :
  0 < K ->
  let t := round_half_even a K in
  - K <= 2 * (a - t * K) <= K.
Proof.
  intros HK t. subst t. unfold round_half_even.
  pose proof (Z.div_mod a K ltac:(lia)) as Hdm.
  pose proof (Z.mod_pos_bound a K HK) as Hr.
  set (q := a / K) in *. set (r := a mod K) in *.
  assert (Hq : a - q * K = r) by lia.
  assert (Hq1 : a - (q + 1) * K = r - K) by lia.
  destruct (Z.compare_spec (2 * r) K) as [E | E | E].
  - destruct (Z.even q); [rewrite Hq | rewrite Hq1]; lia.
  - rewrite Hq. lia.
  - rewrite Hq1. lia.
Qed.

Lemma nearest_tenth_bounds (n : Z) :
  1 <= n ->
  let t := nearest_tenth n in
  1 <= t /\ (2 * t - 1) ^ 2 <= 400 * n < (2 * t + 1) ^ 2.
Proof.
  intros Hn t. subst t. unfold nearest_tenth.
  pose proof (Z.sqrt_spec (400 * n) ltac:(lia)) as [Hlo Hhi].
  set (u := Z.sqrt (400 * n)) in *.
  assert (Hu : 20 <= u).
  { apply Z.sqrt_le_square; lia. }
  pose proof (Z.div_mod (u + 1) 2 ltac:(lia)) as Hdm.
  pose proof (Z.mod_pos_bound (u + 1) 2 ltac:(lia)) as Hr.
  set (t := (u + 1) / 2) in *. set (r := (u + 1) mod 2) in *.
  clearbody t r u.
  split; [lia |]. split; nia.
Qed.

Lemma nearest_tenth_unique (n t : Z) :
  1 <= n -> 0 <= t ->
  (2 * t - 1) ^ 2 <= 400 * n < (2 * t + 1) ^ 2 ->
  t = nearest_tenth n.
Proof.
  intros Hn Ht [Hlo Hhi].
  destruct (nearest_tenth_bounds n Hn) as (Ht' & Hlo' & Hhi').
  set (t' := nearest_tenth n) in *.
  destruct (Z.lt_trichotomy t t') as [H | [H | H]]; [exfalso | exact H | exfalso]; nia.
Qed.

Lemma odd_square_mod8 (t : Z) : exists c, (2 * t + 1) ^ 2 = 8 * c + 1.
Proof.
  destruct (Z.Even_or_Odd t) as [[j Hj] | [j Hj]]; subst t.
  - exists (2 * j * j + j). ring.
  - exists (2 * j * j + 3 * j + 1). ring.
Qed.

Lemma tenths_of_rounded_root (n K Q : Z) :
  1 <= n ->
  2 ^ 31 <= K ->
  0 < Q < 2 ^ 53 ->
  (2 * Q - 1) ^ 2 < 4 * n * K ^ 2 < (2 * Q + 1) ^ 2 ->
  round_half_even (10 * Q) K = nearest_tenth n.
Proof.
  intros Hn HK HQ [Hlo Hhi].
  assert (HK0 : 0 < K) by lia.
  pose proof (round_half_even_near (10 * Q) K HK0) as Hnear. cbv zeta in Hnear.
  set (t := round_half_even (10 * Q) K) in *. clearbody t.
  change (2 ^ 31) with 2147483648 in HK.
  change (2 ^ 53) with 9007199254740992 in HQ.
  assert (HtK : 20 * Q - K <= 2 * (t * K) <= 20 * Q + K) by lia.
  assert (Ht0 : 0 <= t).
  { destruct (Z_le_gt_dec 0 t) as [H | H]; [exact H | exfalso].
    assert (t * K <= (- 1) * K) by (apply Z.mul_le_mono_nonneg_r; lia).
    lia. }
  assert (HK2 : 2147483648 * K <= K ^ 2).
  { replace (K ^ 2) with (K * K) by ring. apply Z.mul_le_mono_nonneg_r; lia. }
  assert (Hbig : 20 * (2 * t + 1) <= K).
  { destruct (Z_le_gt_dec (20 * (2 * t + 1)) K) as [H | H]; [exact H | exfalso].
    assert (H1 : K * K <= (40 * t + 19) * K) by (apply Z.mul_le_mono_nonneg_r; lia).
    replace (K * K) with (K ^ 2) in H1 by ring.
    replace ((40 * t + 19) * K) with (40 * (t * K) + 19 * K) in H1 by ring.
    lia. }
  assert (HbigK : 20 * ((2 * t + 1) * K) <= K ^ 2).
  { replace (K ^ 2) with (K * K) by ring.
    rewrite Z.mul_assoc. apply Z.mul_le_mono_nonneg_r; lia. }
  apply nearest_tenth_unique; [exact Hn | exact Ht0 |].
  split.
  - destruct (Z_le_gt_dec ((2 * t - 1) ^ 2) (400 * n)) as [H | H]; [exact H | exfalso].
    assert (Ht1 : 1 <= t).
    { destruct (Z.eq_dec t 0) as [-> | Hne]; [| lia].
      change ((2 * 0 - 1) ^ 2) with 1 in H. lia. }
    assert (HY : (2 * t - 1) * K <= 20 * Q) by lia.
    assert (HY0 : 1 * K <= (2 * t - 1) * K) by (apply Z.mul_le_mono_nonneg_r; lia).
    set (Y := (2 * t - 1) * K) in *.
    assert (H1 : (Y - 10) ^ 2 <= (20 * Q - 10) ^ 2)
      by (apply Z.pow_le_mono_l; lia).
    assert (H2 : (20 * Q - 10) ^ 2 < 400 * n * K ^ 2).
    { replace ((20 * Q - 10) ^ 2) with (100 * (2 * Q - 1) ^ 2) by ring. lia. }
    assert (H3 : (400 * n + 1) * K ^ 2 <= Y ^ 2).
    { replace (Y ^ 2) with ((2 * t - 1) ^ 2 * K ^ 2) by (subst Y; ring).
      apply Z.mul_le_mono_nonneg_r; [apply Z.pow_nonneg; lia | lia]. }
    replace ((Y - 10) ^ 2) with (Y ^ 2 - 20 * Y + 100) in H1 by ring.
    replace ((400 * n + 1) * K ^ 2) with (400 * n * K ^ 2 + K ^ 2) in H3 by ring.
    assert (H4 : 20 * Y <= 20 * ((2 * t + 1) * K)).
    { subst Y. apply Z.mul_le_mono_nonneg_l; [lia |].
      apply Z.mul_le_mono_nonneg_r; lia. }
    lia.
  - destruct (Z_lt_ge_dec (400 * n) ((2 * t + 1) ^ 2)) as [H | H]; [exact H | exfalso].
    destruct (odd_square_mod8 t) as [c Hc].
    assert (H7 : (2 * t + 1) ^ 2 + 7 <= 400 * n) by lia.
    assert (HX : 20 * Q <= (2 * t + 1) * K) by lia.
    set (X := (2 * t + 1) * K) in *.
    assert (H1 : (20 * Q + 10) ^ 2 <= (X + 10) ^ 2)
      by (apply Z.pow_le_mono_l; lia).
    assert (H2 : 400 * n * K ^ 2 < (20 * Q + 10) ^ 2).
    { replace ((20 * Q + 10) ^ 2) with (100 * (2 * Q + 1) ^ 2) by ring. lia. }
    assert (H3 : X ^ 2 + 7 * K ^ 2 <= 400 * n * K ^ 2).
    { replace (X ^ 2 + 7 * K ^ 2) with (((2 * t + 1) ^ 2 + 7) * K ^ 2) by (subst X; ring).
      apply Z.mul_le_mono_nonneg_r; [apply Z.pow_nonneg; lia | exact H7]. }
    assert (H4 : 7 * K ^ 2 < 20 * X + 100).
    { replace ((X + 10) ^ 2) with (X ^ 2 + 20 * X + 100) in H1 by ring. lia. }
    assert (H5 : 20 * X <= K ^ 2) by exact HbigK.
    lia.
Qed.

(** *** The digits of a mantissa *)

Lemma digits2_pos_bounds (p : positive) :
  2 ^ (Z.pos (digits2_pos p) - 1) <= Z.pos p < 2 ^ Z.pos (digits2_pos p).
Proof.
  induction p as [p IH | p IH |]; cbn [digits2_pos].
  - rewrite Pos2Z.inj_succ.
    replace (Z.succ (Z.pos (digits2_pos p)) - 1) with (Z.succ (Z.pos (digits2_pos p) - 1)) by lia.
    rewrite !Z.pow_succ_r by lia. lia.
  - rewrite Pos2Z.inj_succ.
    replace (Z.succ (Z.pos (digits2_pos p)) - 1) with (Z.succ (Z.pos (digits2_pos p) - 1)) by lia.
    rewrite !Z.pow_succ_r by lia. lia.
  - cbn. lia.
Qed.

Lemma digits2_pos_unique (p : positive) (d : Z) :
  2 ^ (d - 1) <= Z.pos p < 2 ^ d -> Z.pos (digits2_pos p) = d.
Proof.
  intros [Hlo Hhi].
  pose proof (digits2_pos_bounds p) as [Hlo' Hhi'].
  set (d' := Z.pos (digits2_pos p)) in *.
  assert (Hd' : 0 < d') by (subst d'; lia).
  destruct (Z.lt_trichotomy d' d) as [H | [H | H]]; [exfalso | exact H | exfalso].
  - assert (2 ^ d' <= 2 ^ (d - 1)) by (apply Z.pow_le_mono_r; lia). lia.
  - assert (0 <= d).
    { destruct (Z_le_gt_dec 0 d); [assumption |].
      rewrite (Z.pow_neg_r 2 d) in Hhi by lia. lia. }
    assert (2 ^ d <= 2 ^ (d' - 1)) by (apply Z.pow_le_mono_r; lia). lia.
Qed.

(** *** Rounding a mantissa of 53 digits *)

Lemma fexp_normal (x : Z) : -1021 <= x -> fexp prec emax x = x - 53.
Proof. intros H. unfold fexp, emin, prec, emax. lia. Qed.

Lemma binary_round_aux_keeps (s : bool) (m : positive) (e : Z) (l : location) :
  Z.pos (digits2_pos m) = 53 ->
  -1074 <= e <= 971 ->
  l = loc_Exact \/ l = loc_Inexact Lt ->
  binary_round_aux prec emax s (Z.pos m) e l = S754_finite s m e.
Proof.
  intros Hd He Hl.
  unfold binary_round_aux, shr_fexp. cbn [Zdigits2]. rewrite Hd.
  rewrite fexp_normal by lia.
  replace (53 + e - 53 - e) with 0 by lia. cbn [shr].
  assert (Hround : round_nearest_even (shr_m (shr_record_of_loc (Z.pos m) l))
                     (loc_of_shr_record (shr_record_of_loc (Z.pos m) l)) = Z.pos m)
    by (destruct Hl as [-> | ->]; reflexivity).
  rewrite Hround. cbn [Zdigits2]. rewrite Hd.
  rewrite fexp_normal by lia.
  replace (53 + e - 53 - e) with 0 by lia. cbn [shr shr_record_of_loc shr_m].
  replace (e <=? emax - prec) with true; [reflexivity |].
  symmetry. apply Z.leb_le. unfold emax, prec. lia.
Qed.

Lemma binary_round_aux_up (s : bool) (m : positive) (e : Z) :
  Z.pos (digits2_pos m) = 53 ->
  Z.pos (digits2_pos (m + 1)) = 53 ->
  -1074 <= e <= 971 ->
  binary_round_aux prec emax s (Z.pos m) e (loc_Inexact Gt) = S754_finite s (m + 1) e.
Proof.
  intros Hd Hd1 He.
  unfold binary_round_aux, shr_fexp. cbn [Zdigits2]. rewrite Hd.
  rewrite fexp_normal by lia.
  replace (53 + e - 53 - e) with 0 by lia. cbn [shr].
  cbn [shr_record_of_loc shr_m loc_of_shr_record round_nearest_even].
  change (Z.pos m + 1) with (Z.pos (m + 1)).
  cbn [Zdigits2]. rewrite Hd1.
  rewrite fexp_normal by lia.
  replace (53 + e - 53 - e) with 0 by lia. cbn [shr shr_record_of_loc shr_m].
  replace (e <=? emax - prec) with true; [reflexivity |].
  symmetry. apply Z.leb_le. unfold emax, prec. lia.
Qed.

(** *** An int below [2 ^ 53] converts exactly *)

Lemma iter_xO_value (m : positive) (k : positive) :
  Z.pos (Pos.iter xO m k) = Z.pos m * 2 ^ Z.pos k.
Proof.
  induction k as [| k IH] using Pos.peano_ind.
  - cbn. lia.
  - rewrite Pos.iter_succ, Pos2Z.inj_succ, Z.pow_succ_r by lia.
    rewrite Pos2Z.inj_xO, IH. ring.
Qed.

Lemma nearest_float_exact (p : positive) :
  Z.pos (digits2_pos p) <= 53 ->
  exists m : positive,
    nearest_float (Z.pos p) 0 = S754_finite false m (Z.pos (digits2_pos p) - 53) /\
    Z.pos (digits2_pos m) = 53 /\
    Z.pos m = Z.pos p * 2 ^ (53 - Z.pos (digits2_pos p)).
Proof.
  intros Hd.
  pose proof (digits2_pos_bounds p) as Hb.
  set (d := Z.pos (digits2_pos p)) in *.
  assert (Hd0 : 0 < d) by (subst d; lia).
  unfold nearest_float, binary_normalize, binary_round.
  fold d. rewrite Z.add_0_r. rewrite fexp_normal by lia.
  unfold shl_align.
  destruct (d - 53 - 0) as [| k | k] eqn:Hk; try lia.
  - assert (d = 53) by lia.
    exists p. split; [| split].
    + replace (d - 53) with 0 by lia.
      apply binary_round_aux_keeps; [subst d; lia | lia | left; reflexivity].
    + subst d. lia.
    + replace (53 - d) with 0 by lia. lia.
  - exists (Pos.iter xO p k).
    assert (Hv : Z.pos (Pos.iter xO p k) = Z.pos p * 2 ^ (53 - d)).
    { rewrite iter_xO_value. f_equal. f_equal. lia. }
    assert (Hdig : Z.pos (digits2_pos (Pos.iter xO p k)) = 53).
    { apply digits2_pos_unique. rewrite Hv.
      assert (Hp : 0 < 2 ^ (53 - d)) by (apply Z.pow_pos_nonneg; lia).
      replace (2 ^ (53 - 1)) with (2 ^ (d - 1) * 2 ^ (53 - d))
        by (rewrite <- Z.pow_add_r by lia; f_equal; lia).
      replace (2 ^ 53) with (2 ^ d * 2 ^ (53 - d))
        by (rewrite <- Z.pow_add_r by lia; f_equal; lia).
      split.
      - apply Z.mul_le_mono_nonneg_r; lia.
      - apply Z.mul_lt_mono_pos_r; lia. }
    split; [| split; assumption].
    apply binary_round_aux_keeps; [exact Hdig | lia | left; reflexivity].
Qed.

(** *** The square root *)

Lemma round_root (m' q r e' : Z) :
  Z.sqrtrem m' = (q, r) ->
  2 ^ 104 <= m' <= 2 ^ 106 - 2 ^ 53 ->
  -1074 <= e' <= 971 ->
  exists Q : positive,
    binary_round_aux prec emax false q e'
      (if r =? 0 then loc_Exact else loc_Inexact (if r <=? q then Lt else Gt)) =
    S754_finite false Q e' /\
    Z.pos Q < 2 ^ 53 /\
    (2 * Z.pos Q - 1) ^ 2 < 4 * m' < (2 * Z.pos Q + 1) ^ 2.
Proof.
  intros Hqr Hm He.
  pose proof (Z.sqrtrem_spec m' ltac:(lia)) as Hspec. rewrite Hqr in Hspec.
  destruct Hspec as [Hsq Hr].
  change (2 ^ 104) with 20282409603651670423947251286016 in Hm.
  change (2 ^ 106 - 2 ^ 53) with 81129638414606672688589750403072 in Hm.
  change (2 ^ 53) with 9007199254740992.
  assert (Hq0 : 0 <= q) by lia.
  assert (Hqlo : 4503599627370496 <= q).
  { destruct (Z_le_gt_dec 4503599627370496 q) as [H | H]; [exact H | exfalso].
    assert ((q + 1) * (q + 1) <= 4503599627370496 * 4503599627370496)
      by (apply Z.mul_le_mono_nonneg; lia).
    lia. }
  assert (Hqhi : q < 9007199254740992).
  { destruct (Z_lt_ge_dec q 9007199254740992) as [H | H]; [exact H | exfalso].
    assert (9007199254740992 * 9007199254740992 <= q * q)
      by (apply Z.mul_le_mono_nonneg; lia).
    lia. }
  destruct q as [| qp | qp]; try lia.
  assert (Hdig : Z.pos (digits2_pos qp) = 53)
    by (apply digits2_pos_unique; change (2 ^ (53 - 1)) with 4503599627370496;
        change (2 ^ 53) with 9007199254740992; lia).
  destruct (Z.eqb_spec r 0) as [Hr0 | Hr0].
  - exists qp. split; [| split; [lia |]].
    + apply binary_round_aux_keeps; [exact Hdig | lia | left; reflexivity].
    + subst r. rewrite Hsq. split; [| ].
      * replace ((2 * Z.pos qp - 1) ^ 2) with (4 * (Z.pos qp * Z.pos qp) - 4 * Z.pos qp + 1) by ring. lia.
      * replace ((2 * Z.pos qp + 1) ^ 2) with (4 * (Z.pos qp * Z.pos qp) + 4 * Z.pos qp + 1) by ring. lia.
  - destruct (Z.leb_spec r (Z.pos qp)) as [Hle | Hgt].
    + exists qp. split; [| split; [lia |]].
      * apply binary_round_aux_keeps; [exact Hdig | lia | right; reflexivity].
      * rewrite Hsq. split.
        -- replace ((2 * Z.pos qp - 1) ^ 2) with (4 * (Z.pos qp * Z.pos qp) - 4 * Z.pos qp + 1) by ring. lia.
        -- replace ((2 * Z.pos qp + 1) ^ 2) with (4 * (Z.pos qp * Z.pos qp) + 4 * Z.pos qp + 1) by ring. lia.
    + assert (Hq1 : Z.pos qp + 1 < 9007199254740992).
      { destruct (Z_lt_ge_dec (Z.pos qp + 1) 9007199254740992) as [H | H]; [exact H | exfalso].
        assert (Z.pos qp = 9007199254740991) by lia.
        rewrite H0 in *. lia. }
      assert (Hdig1 : Z.pos (digits2_pos (qp + 1)) = 53)
        by (apply digits2_pos_unique; change (2 ^ (53 - 1)) with 4503599627370496;
            change (2 ^ 53) with 9007199254740992; lia).
      exists (qp + 1)%positive. split; [| split; [lia |]].
      * apply binary_round_aux_up; [exact Hdig | exact Hdig1 | lia].
      * rewrite Hsq. rewrite Pos2Z.inj_add. split.
        -- replace ((2 * (Z.pos qp + 1) - 1) ^ 2) with (4 * (Z.pos qp * Z.pos qp) + 4 * Z.pos qp + 1) by ring. lia.
        -- replace ((2 * (Z.pos qp + 1) + 1) ^ 2) with (4 * (Z.pos qp * Z.pos qp) + 12 * Z.pos qp + 9) by ring. lia.
Qed.

Lemma SFsqrt_rounds (m : positive) (e : Z) :
  Z.pos (digits2_pos m) = 53 ->
  -52 <= e <= 0 ->
  let e' := (54 + e) / 2 - 53 in
  exists Q : positive,
    SFsqrt prec emax (S754_finite false m e) = S754_finite false Q e' /\
    Z.pos Q < 2 ^ 53 /\
    (2 * Z.pos Q - 1) ^ 2 < 4 * (Z.pos m * 2 ^ (e - 2 * e')) < (2 * Z.pos Q + 1) ^ 2.
Proof.
  intros Hd He e'.
  pose proof (digits2_pos_bounds m) as Hm. rewrite Hd in Hm.
  change (2 ^ (53 - 1)) with 4503599627370496 in Hm.
  change (2 ^ 53) with 9007199254740992 in Hm.
  unfold SFsqrt, SFsqrt_core_binary. cbn [Zdigits2]. rewrite Hd.
  rewrite !Z.div2_div.
  replace (53 + e + 1) with (54 + e) by lia.
  rewrite fexp_normal by (Z.to_euclidean_division_equations; lia).
  fold e'.
  rewrite Z.min_l by (subst e'; Z.to_euclidean_division_equations; lia).
  assert (Hs : e - 2 * e' = 52 \/ e - 2 * e' = 53)
    by (subst e'; Z.to_euclidean_division_equations; lia).
  assert (He' : -52 <= e' <= -26) by (subst e'; Z.to_euclidean_division_equations; lia).
  destruct (Z.sqrtrem (match e - 2 * e' with
                       | 0 => Z.pos m
                       | Z.pos _ => Z.shiftl (Z.pos m) (e - 2 * e')
                       | Z.neg _ => 0
                       end)) as [q r] eqn:Hqr.
  apply (round_root _ q r e').
  - rewrite <- Hqr. f_equal.
    destruct Hs as [-> | ->]; rewrite Z.shiftl_mul_pow2 by lia; reflexivity.
  - destruct Hs as [-> | ->].
    + change (2 ^ 52) with 4503599627370496.
      change (2 ^ 104) with (4503599627370496 * 4503599627370496).
      change (2 ^ 106 - 2 ^ 53) with 81129638414606672688589750403072. lia.
    + change (2 ^ 53) with 9007199254740992.
      change (2 ^ 104) with 20282409603651670423947251286016.
      change (2 ^ 106 - 9007199254740992) with 81129638414606672688589750403072. lia.
  - lia.
Qed.

(** *** The label *)

Lemma pow_half_tenths (n : Z) :
  1 <= n < 2 ^ 44 ->
  exists (Q : positive) (e' : Z),
    pow_half n = Returns (S754_finite false Q e') /\
    tenths Q e' = nearest_tenth n.
Proof.
  intros [Hn1 Hn44].
  destruct n as [| p | p]; try lia.
  pose proof (digits2_pos_bounds p) as Hb.
  set (d := Z.pos (digits2_pos p)) in *.
  assert (Hd0 : 1 <= d) by (subst d; lia).
  assert (Hd44 : d <= 44).
  { destruct (Z_le_gt_dec d 44) as [H | H]; [exact H | exfalso].
    assert (2 ^ 44 <= 2 ^ (d - 1)) by (apply Z.pow_le_mono_r; lia). lia. }
  destruct (nearest_float_exact p ltac:(fold d; lia)) as (m & Hm & Hdm & Hvm).
  fold d in Hm, Hvm.
  destruct (SFsqrt_rounds m (d - 53) Hdm ltac:(lia)) as (Q & HQ & HQ53 & HQr).
  cbv zeta in HQ, HQr.
  set (e' := (54 + (d - 53)) / 2 - 53) in *.
  assert (He' : -53 < e' <= -31) by (subst e'; Z.to_euclidean_division_equations; lia).
  exists Q, e'. split.
  - unfold pow_half, int_to_float. rewrite Hm. cbn [is_infinite result_bind].
    rewrite HQ. reflexivity.
  - unfold tenths. replace (0 <=? e') with false by (symmetry; apply Z.leb_gt; lia).
    apply tenths_of_rounded_root.
    + lia.
    + apply Z.pow_le_mono_r; lia.
    + lia.
    + replace (4 * Z.pos p * (2 ^ (- e')) ^ 2)
        with (4 * (Z.pos m * 2 ^ (d - 53 - 2 * e'))); [exact HQr |].
      rewrite Hvm. rewrite <- Z.pow_mul_r by lia.
      rewrite <- !Z.mul_assoc. f_equal. f_equal.
      rewrite <- Z.pow_add_r by lia. f_equal. lia.
Qed.

(** The label the script computes is the label of the spec. *)
Lemma distance_label_computed (n : Z) :
  0 <= n < 2 ^ 44 ->
  (x <-? pow_half n ;; Returns (format_1f x ++ " px"))%result = Returns (distance_label n).
Proof.
  intros [Hn0 Hn44].
  destruct (Z.eq_dec n 0) as [-> | Hne]; [reflexivity |].
  destruct (pow_half_tenths n ltac:(lia)) as (Q & e' & Hpow & Ht).
  rewrite Hpow. cbn [result_bind format_1f sign_str].
  unfold distance_label. rewrite Ht. reflexivity.
Qed.


(** *** Midpoints and roots that do not overflow *)

Lemma digits2_pos_small (p : positive) :
  Z.pos p < 2 ^ 53 -> Z.pos (digits2_pos p) <= 53.
Proof.
  intros Hp.
  pose proof (digits2_pos_bounds p) as [Hlo _].
  destruct (Z_le_gt_dec (Z.pos (digits2_pos p)) 53) as [H | H]; [exact H | exfalso].
  assert (2 ^ 53 <= 2 ^ (Z.pos (digits2_pos p) - 1)) by (apply Z.pow_le_mono_r; lia).
  lia.
Qed.

(** Half an int below [2 ^ 53] is a float. *)
Lemma nearest_float_half_exact (p : positive) :
  Z.pos (digits2_pos p) <= 53 ->
  exists m : positive,
    nearest_float (Z.pos p) (-1) = S754_finite false m (Z.pos (digits2_pos p) - 54) /\
    Z.pos m = Z.pos p * 2 ^ (53 - Z.pos (digits2_pos p)).
Proof.
  intros Hd.
  pose proof (digits2_pos_bounds p) as Hb.
  set (d := Z.pos (digits2_pos p)) in *.
  assert (Hd0 : 0 < d) by (subst d; lia).
  unfold nearest_float, binary_normalize, binary_round.
  fold d. rewrite fexp_normal by lia.
  unfold shl_align.
  replace (d + -1 - 53 - -1) with (d - 53) by lia.
  replace (d + -1 - 53) with (d - 54) by lia.
  destruct (d - 53) as [| k | k] eqn:Hk; try lia.
  - assert (d = 53) by lia.
    exists p. split.
    + replace (d - 54) with (-1) by lia.
      apply binary_round_aux_keeps; [subst d; lia | lia | left; reflexivity].
    + replace (53 - d) with 0 by lia. lia.
  - exists (Pos.iter xO p k).
    assert (Hv : Z.pos (Pos.iter xO p k) = Z.pos p * 2 ^ (53 - d)).
    { rewrite iter_xO_value. f_equal. f_equal. lia. }
    assert (Hdig : Z.pos (digits2_pos (Pos.iter xO p k)) = 53).
    { apply digits2_pos_unique. rewrite Hv.
      assert (Hp : 0 < 2 ^ (53 - d)) by (apply Z.pow_pos_nonneg; lia).
      replace (2 ^ (53 - 1)) with (2 ^ (d - 1) * 2 ^ (53 - d))
        by (rewrite <- Z.pow_add_r by lia; f_equal; lia).
      replace (2 ^ 53) with (2 ^ d * 2 ^ (53 - d))
        by (rewrite <- Z.pow_add_r by lia; f_equal; lia).
      split.
      - apply Z.mul_le_mono_nonneg_r; lia.
      - apply Z.mul_lt_mono_pos_r; lia. }
    split; [| assumption].
    apply binary_round_aux_keeps; [exact Hdig | lia | left; reflexivity].
Qed.

Lemma true_div_2_returns (n : Z) :
  0 <= n < 2 ^ 53 -> exists x, true_div_2 n = Returns x.
Proof.
  intros [Hn0 Hn53].
  destruct n as [| p | p]; try lia.
  - eexists. reflexivity.
  - destruct (nearest_float_half_exact p (digits2_pos_small p Hn53)) as (m & Hm & _).
    unfold true_div_2. rewrite Hm. eexists. reflexivity.
Qed.

Lemma pow_half_returns (n : Z) :
  0 <= n < 2 ^ 44 -> exists x, pow_half n = Returns x.
Proof.
  intros Hn.
  pose proof (distance_label_computed n Hn) as Hlabel.
  destruct (pow_half n) as [x | msg]; [exists x; reflexivity | discriminate].
Qed.

Section Properties.
Context {C : Collaborators}.

(** ** The monad *)

(** How a sequence of two computations ends. *)
Lemma st_bind {A B : Type} (m : M A) (k : A -> M B) (s : SessionState) :
  st (bind m k s) =
  match res (m s) with
  | Ok a => st (k a (st (m s)))
  | Raised _ => st (m s)
  end.
Proof. unfold bind. destruct (res (m s)); reflexivity. Qed.

Lemma res_bind {A B : Type} (m : M A) (k : A -> M B) (s : SessionState) :
  res (bind m k s) =
  match res (m s) with
  | Ok a => res (k a (st (m s)))
  | Raised e => Raised e
  end.
Proof. unfold bind. destruct (res (m s)); reflexivity. Qed.

Lemma out_bind {A B : Type} (m : M A) (k : A -> M B) (s : SessionState) :
  out (bind m k s) =
  match res (m s) with
  | Ok a => (out (m s) ++ out (k a (st (m s))))%list
  | Raised _ => out (m s)
  end.
Proof. unfold bind. destruct (res (m s)); reflexivity. Qed.

Lemma try_except_passes {A : Type} (body : M A) (handler : string -> M A)
    (s : SessionState) :
  (forall msg, res (body s) <> Raised (Exception msg)) ->
  try_except body handler s = body s.
Proof.
  intros H. unfold try_except.
  destruct (res (body s)) as [a | [msg |]] eqn:E; try reflexivity.
  exfalso. exact (H msg eq_refl).
Qed.

Lemma try_except_catches {A : Type} (body : M A) (handler : string -> M A)
    (s : SessionState) (msg : string) :
  res (body s) = Raised (Exception msg) ->
  try_except body handler s =
  mkRun (res (handler msg (st (body s)))) (st (handler msg (st (body s))))
        (out (body s) ++ out (handler msg (st (body s)))).
Proof. intros H. unfold try_except. rewrite H. reflexivity. Qed.

Lemma st_try_except {A : Type} (body : M A) (handler : string -> M A)
    (s : SessionState) :
  st (try_except body handler s) =
  match res (body s) with
  | Raised (Exception msg) => st (handler msg (st (body s)))
  | _ => st (body s)
  end.
Proof. unfold try_except. destruct (res (body s)) as [a | [msg |]]; reflexivity. Qed.

Lemma res_try_except {A : Type} (body : M A) (handler : string -> M A)
    (s : SessionState) :
  res (try_except body handler s) =
  match res (body s) with
  | Raised (Exception msg) => res (handler msg (st (body s)))
  | other => other
  end.
Proof.
  unfold try_except. destruct (res (body s)) as [a | [msg |]] eqn:E; cbn; congruence.
Qed.

Lemma out_try_except {A : Type} (body : M A) (handler : string -> M A)
    (s : SessionState) :
  out (try_except body handler s) =
  match res (body s) with
  | Raised (Exception msg) => (out (body s) ++ out (handler msg (st (body s))))%list
  | _ => out (body s)
  end.
Proof. unfold try_except. destruct (res (body s)) as [a | [msg |]]; reflexivity. Qed.

Lemma emit_bind {A : Type} (o : Output) (k : unit -> M A) (s : SessionState) :
  bind (emit o) k s = mkRun (res (k tt s)) (st (k tt s)) (o :: out (k tt s)).
Proof. reflexivity. Qed.

(** ** [handle_point_addition], case by case *)

Lemma handle_point_addition_select (x y : Z) (s : SessionState) :
  current_tool s = select ->
  handle_point_addition x y s = mkRun (Ok tt) s [].
Proof.
  intros Htool. unfold handle_point_addition, bind, get. cbn.
  rewrite Htool. reflexivity.
Qed.

Lemma handle_point_addition_first (x y : Z) (s : SessionState) :
  current_tool s <> select ->
  start_point s = None ->
  handle_point_addition x y s =
  mkRun (Ok tt) (set_start_point (Some (x, y)) s)
        [st_success ("Start point set at (" ++ str_int x ++ ", " ++ str_int y ++ ")")].
Proof.
  intros Htool Hstart. unfold handle_point_addition, bind, get. cbn.
  destruct (current_tool s) eqn:E; try congruence; cbn; rewrite Hstart; reflexivity.
Qed.

Lemma handle_point_addition_second (x y : Z) (s : SessionState) (p0 : Z * Z) :
  current_tool s <> select ->
  start_point s = Some p0 ->
  handle_point_addition x y s =
  mkRun (Raised RerunException)
        (set_start_point None
           (set_drawings (drawings s ++ [completed s p0 (x, y)]) s))
        [].
Proof.
  intros Htool Hstart. unfold handle_point_addition, bind, get. cbn.
  destruct p0 as [px py].
  destruct (current_tool s) eqn:E; try congruence; cbn; rewrite Hstart; cbn;
    unfold completed; cbn; rewrite E; reflexivity.
Qed.

(** ** Events *)

Lemma step_SetTool (s : SessionState) (tool : Tool) :
  step s (SetTool tool) = set_current_tool tool s.
Proof. reflexivity. Qed.

Lemma step_SetTool_tool_selection (s : SessionState) (w : Widgets) :
  step s (SetTool (annotation_tools_radio w)) = st (tool_selection w s).
Proof. reflexivity. Qed.

Lemma step_ClearAll (s : SessionState) :
  step s ClearAll = set_start_point None (set_drawings [] s).
Proof. reflexivity. Qed.

Lemma step_SubmitPoint_select (s : SessionState) (x y : Z) :
  current_tool s = select -> step s (SubmitPoint x y) = s.
Proof.
  intros H. unfold step. rewrite handle_point_addition_select by assumption. reflexivity.
Qed.

Lemma step_SubmitPoint_first (s : SessionState) (x y : Z) :
  current_tool s <> select -> start_point s = None ->
  step s (SubmitPoint x y) = set_start_point (Some (x, y)) s.
Proof.
  intros Ht Hs. unfold step. rewrite handle_point_addition_first by assumption. reflexivity.
Qed.

Lemma step_SubmitPoint_second (s : SessionState) (x y : Z) (p0 : Z * Z) :
  current_tool s <> select -> start_point s = Some p0 ->
  step s (SubmitPoint x y) =
  set_start_point None (set_drawings (drawings s ++ [completed s p0 (x, y)]) s).
Proof.
  intros Ht Hs. unfold step. rewrite (handle_point_addition_second x y s p0) by assumption.
  reflexivity.
Qed.

Lemma steps_app (es1 es2 : list Event) (s : SessionState) :
  steps (es1 ++ es2) s = steps es2 (steps es1 s).
Proof. unfold steps. apply fold_left_app. Qed.

(** The invariant of the two-click gesture, from any state whose tool draws:
    the drawings grow by the pairs completed and the pending point is set
    exactly when an odd number of points is left over. *)
Lemma gesture_invariant (es : list Event) :
  forall s : SessionState,
    forallb drawing_event es = true ->
    current_tool s <> select ->
    let s' := steps es s in
    current_tool s' <> select /\
    List.length (drawings s') = (List.length (drawings s) + (pending s + submissions es) / 2)%nat /\
    pending s' = ((pending s + submissions es) mod 2)%nat.
Proof.
  induction es as [| e es IH]; intros s Hall Htool; cbn zeta.
  - cbn. unfold pending. destruct (start_point s); cbn; repeat split; auto; lia.
  - cbn in Hall. apply andb_true_iff in Hall as [He Hes].
    change (steps (e :: es) s) with (steps es (step s e)).
    destruct e as [tool | x y |]; cbn in He; try discriminate.
    + assert (Ht : current_tool (step s (SetTool tool)) <> select)
        by (rewrite step_SetTool; cbn; destruct tool; congruence).
      destruct (IH _ Hes Ht) as (H1 & H2 & H3).
      rewrite step_SetTool in *. cbn [submissions].
      split; [exact H1 | split; [exact H2 | exact H3]].
    + destruct (start_point s) as [p0 |] eqn:Hs.
      * assert (Ht : current_tool (step s (SubmitPoint x y)) <> select)
          by (rewrite (step_SubmitPoint_second s x y p0) by assumption; exact Htool).
        destruct (IH _ Hes Ht) as (H1 & H2 & H3).
        rewrite (step_SubmitPoint_second s x y p0) in * by assumption.
        cbn [submissions]. unfold pending in *. rewrite Hs.
        cbn [drawings start_point set_start_point set_drawings Nat.add] in H2, H3.
        rewrite List.length_app in H2. cbn [List.length] in H2.
        split; [exact H1 | split].
        -- rewrite H2.
           replace (1 + S (submissions es))%nat with (submissions es + 1 * 2)%nat by lia.
           rewrite Nat.div_add by lia. lia.
        -- rewrite H3.
           replace (1 + S (submissions es))%nat with (submissions es + 1 * 2)%nat by lia.
           rewrite Nat.Div0.mod_add. reflexivity.
      * assert (Ht : current_tool (step s (SubmitPoint x y)) <> select)
          by (rewrite step_SubmitPoint_first by assumption; exact Htool).
        destruct (IH _ Hes Ht) as (H1 & H2 & H3).
        rewrite step_SubmitPoint_first in * by assumption.
        cbn [submissions]. unfold pending in *. rewrite Hs.
        cbn [drawings start_point set_start_point set_drawings Nat.add] in H2, H3.
        split; [exact H1 | split].
        -- rewrite H2. reflexivity.
        -- rewrite H3. reflexivity.
Qed.

(** C4.  For every sequence of point submissions made while the tool is line
    or measure (the tool may change between the two), from a state without a
    start point: the number of drawings grows by one for every pair of
    submissions, and the start point is set after an odd number of
    submissions and empty after an even number. *)
Theorem submissions_pair_up (es : list Event) (s : SessionState) :
  forallb drawing_event es = true ->
  current_tool s <> select ->
  start_point s = None ->
  let s' := steps es s in
  List.length (drawings s') = (List.length (drawings s) + submissions es / 2)%nat /\
  (Nat.odd (submissions es) = true -> start_point s' <> None) /\
  (Nat.even (submissions es) = true -> start_point s' = None).
Proof.
  intros Hall Htool Hstart s'.
  destruct (gesture_invariant es s Hall Htool) as (_ & Hlen & Hpend).
  fold s' in Hlen, Hpend. unfold pending in Hlen, Hpend.
  rewrite Hstart in Hlen, Hpend. cbn [Nat.add] in Hlen, Hpend.
  split; [exact Hlen | split].
  - intros Hodd Hnone. rewrite Hnone in Hpend.
    apply Nat.odd_spec in Hodd. destruct Hodd as [k Hk].
    rewrite Hk in Hpend.
    replace (2 * k + 1)%nat with (1 + k * 2)%nat in Hpend by lia.
    rewrite Nat.Div0.mod_add in Hpend. discriminate.
  - intros Heven. apply Nat.even_spec in Heven. destruct Heven as [k Hk].
    rewrite Hk in Hpend.
    replace (2 * k)%nat with (0 + k * 2)%nat in Hpend by lia.
    rewrite Nat.Div0.mod_add in Hpend.
    destruct (start_point s'); [discriminate | reflexivity].
Qed.

(** C5.  While the tool is select, [handle_point_addition] changes neither the
    drawings nor the start point: it leaves the whole session state as it
    was, shows nothing and raises nothing. *)
Theorem submit_in_select_is_noop (x y : Z) (s : SessionState) :
  current_tool s = select ->
  let r := handle_point_addition x y s in
  drawings (st r) = drawings s /\
  start_point (st r) = start_point s /\
  st r = s /\ res r = Ok tt /\ out r = [].
Proof.
  intros Htool r. subst r.
  rewrite handle_point_addition_select by exact Htool.
  repeat split.
Qed.

(** C6.  From every session state, the "Clear All Annotations" block leaves
    no drawing and no start point. *)
Theorem clear_all_empties (s : SessionState) :
  let r := clear_all_annotations s in
  drawings (st r) = [] /\ start_point (st r) = None /\ res r = Ok tt.
Proof. repeat split. Qed.

Lemma remove_background_failed (image : Image) (s : SessionState) (e : string) :
  remove image = Raises e ->
  remove_background image s =
  mkRun (Ok tt) s [st_error ("Background removal failed: " ++ e)].
Proof.
  intros Hfail.
  assert (Hcall : call (remove image) s = mkRun (Raised (Exception e)) s [])
    by (unfold call; rewrite Hfail; reflexivity).
  unfold remove_background, try_except.
  rewrite res_bind, st_bind, out_bind, Hcall. reflexivity.
Qed.

(** C7.  When rembg's [remove] raises, the "Remove Background" block leaves
    the session state exactly as it was before the call (the active image and
    the drawings among the rest), shows the failure message, and raises
    nothing itself. *)
Theorem failed_removal_keeps_state (image : Image) (s : SessionState) (e : string) :
  remove image = Raises e ->
  let r := remove_background image s in
  st r = s /\
  active_image (st r) = active_image s /\
  drawings (st r) = drawings s /\
  out r = [st_error ("Background removal failed: " ++ e)] /\
  res r = Ok tt.
Proof.
  intros Hfail r. subst r.
  rewrite (remove_background_failed image s e Hfail).
  repeat split.
Qed.

Lemma waiting_keeps_gesture (wes : list waiting_event) :
  forall s : SessionState,
    let s' := steps (flat_map waiting wes) s in
    start_point s' = start_point s /\ drawings s' = drawings s /\
    color_key s' = color_key s /\ line_width_key s' = line_width_key s.
Proof.
  induction wes as [| we wes IH]; intros s; cbn zeta.
  - repeat split.
  - cbn [flat_map]. rewrite steps_app.
    destruct (IH (steps (waiting we) s)) as (H1 & H2 & H3 & H4).
    rewrite H1, H2, H3, H4.
    destruct we as [tool | x y]; cbn [waiting steps fold_left].
    + rewrite step_SetTool. repeat split.
    + rewrite step_SetTool.
      rewrite step_SubmitPoint_select by reflexivity. repeat split.
Qed.

(** C10.  A gesture started with tool [t0] and completed with tool [t1]:
    whatever tool changes, and submissions made while the tool is select,
    come between the two points, the start point waits unchanged, and the
    drawing's measure flag is decided by the tool at the second point alone.
    Started in line mode and completed in measure mode, the drawing is a
    measurement. *)
Theorem tool_at_completion_decides
    (s : SessionState) (t0 t1 : Tool) (px py x y : Z) (wes : list waiting_event) :
  start_point s = None ->
  t0 <> select ->
  t1 <> select ->
  let started := steps ([SetTool t0; SubmitPoint px py] ++ flat_map waiting wes) s in
  let s' := steps [SetTool t1; SubmitPoint x y] started in
  start_point started = Some (px, py) /\
  drawings started = drawings s /\
  drawings s' =
    (drawings s ++
     [{| type := "line"; x0 := px; y0 := py; x1 := x; y1 := y;
         color := match color_key s with Some c => c | None => "#FF0000" end;
         width := match line_width_key s with Some w => w | None => 2 end;
         measure_flag := Tool_eqb t1 measure |}])%list /\
  start_point s' = None /\
  (t0 = line -> t1 = measure ->
   exists d, drawings s' = (drawings s ++ [d])%list /\ measure_flag d = true).
Proof.
  intros Hnone Ht0 Ht1 started s'.
  assert (Hstart : start_point started = Some (px, py) /\ drawings started = drawings s
                   /\ color_key started = color_key s
                   /\ line_width_key started = line_width_key s).
  { subst started. rewrite steps_app.
    destruct (waiting_keeps_gesture wes (steps [SetTool t0; SubmitPoint px py] s))
      as (H1 & H2 & H3 & H4).
    rewrite H1, H2, H3, H4. cbn [steps fold_left].
    rewrite step_SetTool.
    rewrite step_SubmitPoint_first by (cbn; assumption).
    repeat split. }
  destruct Hstart as (Hsp & Hdr & Hck & Hwk).
  assert (Hs' : s' = set_start_point None
                  (set_drawings
                     (drawings started ++
                      [completed (set_current_tool t1 started) (px, py) (x, y)])
                     (set_current_tool t1 started))).
  { subst s'. cbn [steps fold_left]. rewrite step_SetTool.
    rewrite (step_SubmitPoint_second _ x y (px, py)) by (cbn; assumption).
    reflexivity. }
  assert (Hdraw : drawings s' =
    (drawings s ++
     [{| type := "line"; x0 := px; y0 := py; x1 := x; y1 := y;
         color := match color_key s with Some c => c | None => "#FF0000" end;
         width := match line_width_key s with Some w => w | None => 2 end;
         measure_flag := Tool_eqb t1 measure |}])%list).
  { rewrite Hs'. cbn [drawings set_start_point set_drawings].
    unfold completed. cbn [color_key line_width_key current_tool set_current_tool fst snd].
    rewrite Hdr, Hck, Hwk. reflexivity. }
  split; [exact Hsp | split; [exact Hdr | split; [exact Hdraw | split]]].
  - rewrite Hs'. reflexivity.
  - intros _ Hm. eexists. split; [exact Hdraw |]. cbn. rewrite Hm. reflexivity.
Qed.

(** ** Runs of [main] *)

Lemma preserves_ret {A : Type} (I : SessionState -> Prop) (a : A) :
  preserves I (ret a).
Proof. intros s H. exact H. Qed.

Lemma preserves_get (I : SessionState -> Prop) : preserves I get.
Proof. intros s H. exact H. Qed.

Lemma preserves_emit (I : SessionState -> Prop) (o : Output) : preserves I (emit o).
Proof. intros s H. exact H. Qed.

Lemma preserves_raise {A : Type} (I : SessionState -> Prop) (e : exn) :
  preserves I (@raise _ A e).
Proof. intros s H. exact H. Qed.

Lemma preserves_call {A : Type} (I : SessionState -> Prop) (r : result A) :
  preserves I (call r).
Proof. intros s H. destruct r; exact H. Qed.

Lemma preserves_modify (I : SessionState -> Prop) (f : SessionState -> SessionState) :
  (forall s, I s -> I (f s)) -> preserves I (modify f).
Proof. intros Hf s H. apply Hf, H. Qed.

Lemma preserves_bind {A B : Type} (I : SessionState -> Prop) (m : M A) (k : A -> M B) :
  preserves I m -> (forall a, preserves I (k a)) -> preserves I (bind m k).
Proof.
  intros Hm Hk s H. unfold bind.
  specialize (Hm s H). destruct (res (m s)) as [a | e]; cbn.
  - apply Hk, Hm.
  - exact Hm.
Qed.

Lemma preserves_try_except {A : Type} (I : SessionState -> Prop)
    (body : M A) (handler : string -> M A) :
  preserves I body -> (forall e, preserves I (handler e)) ->
  preserves I (try_except body handler).
Proof.
  intros Hb Hh s H. unfold try_except.
  specialize (Hb s H). destruct (res (body s)) as [a | [msg |]]; cbn.
  - exact Hb.
  - apply Hh, Hb.
  - exact Hb.
Qed.

(** One step through a run: a bind, a handler, a branch; what is left in the
    end are the assignments. *)
Ltac preserve_step :=
  lazymatch goal with
  | |- forall _, _ => intro
  | |- preserves _ (bind _ _) => apply preserves_bind
  | |- preserves _ (try_except _ _) => apply preserves_try_except
  | |- preserves _ (ret _) => apply preserves_ret
  | |- preserves _ get => apply preserves_get
  | |- preserves _ (emit _) => apply preserves_emit
  | |- preserves _ (raise _) => apply preserves_raise
  | |- preserves _ (call _) => apply preserves_call
  | |- preserves _ (modify _) => apply preserves_modify
  | |- preserves _ (let _ := _ in _) => cbv zeta
  | |- preserves _ (if ?b then _ else _) => destruct b
  | |- preserves _ (match ?x with _ => _ end) => destruct x
  end.

Ltac preserve := repeat preserve_step.

Lemma handle_point_addition_unstyled (x y : Z) :
  preserves unstyled (handle_point_addition x y).
Proof.
  unfold handle_point_addition. preserve.
  - match goal with H : unstyled _ |- _ => destruct H as (Hc & Hw & Hd) end.
    repeat split; cbn; try assumption.
    apply Forall_app. split; [assumption |].
    constructor; [| constructor].
    rewrite Hc, Hw. split; reflexivity.
  - match goal with H : unstyled _ |- _ => exact H end.
  - match goal with H : unstyled _ |- _ => exact H end.
Qed.

Lemma main_unstyled (w : Widgets) : preserves unstyled (main w).
Proof.
  unfold main, process_upload, verify_and_convert_image, load_image, remove_background, tool_selection,
    clear_all_annotations, display_image_with_drawing_tools, download_buttons,
    get_annotated_image, reset_session_state.
  preserve;
    try (apply handle_point_addition_unstyled; assumption);
    try (match goal with H : unstyled _ |- _ => destruct H as (Hc & Hw & Hd) end;
         repeat split; cbn; solve [assumption | constructor]).
Qed.

Lemma interaction_unstyled (w : Widgets) (s : SessionState) :
  unstyled s -> unstyled (interaction w s).
Proof.
  intros H. unfold interaction.
  pose proof (main_unstyled w s H) as H1.
  destruct (res (main w s)) as [a | [msg |]]; try exact H1.
  apply main_unstyled, H1.
Qed.

Lemma session_unstyled (ws : list Widgets) :
  forall s, unstyled s -> unstyled (session ws s).
Proof.
  induction ws as [| w ws IH]; intros s H; cbn.
  - exact H.
  - apply IH, interaction_unstyled, H.
Qed.

Lemma verify_and_convert_image_opened (f : UploadedFile) (im : Image) (s : SessionState) :
  Image_open f = Returns im ->
  verify_and_convert_image f s = mkRun (Ok (Some (verified im))) s [].
Proof.
  intros Hopen. unfold verify_and_convert_image, try_except, bind, call.
  rewrite Hopen. reflexivity.
Qed.

Lemma verify_and_convert_image_failed (f : UploadedFile) (e : string) (s : SessionState) :
  Image_open f = Raises e ->
  verify_and_convert_image f s =
  mkRun (Ok None) s [st_error ("Invalid image file: " ++ e)].
Proof.
  intros Hopen. unfold verify_and_convert_image, try_except, bind, call.
  rewrite Hopen. reflexivity.
Qed.

(** The display block changes the state only through "Add Point". *)
Lemma display_without_add_point (w : Widgets) (s : SessionState) :
  add_point_button w = false ->
  st (display_image_with_drawing_tools w s) = s /\
  res (display_image_with_drawing_tools w s) = Ok tt.
Proof.
  intros Hadd. unfold display_image_with_drawing_tools, try_except, bind, get, call.
  rewrite Hadd. cbn.
  destruct (display_figure s); cbn; split; reflexivity.
Qed.

Lemma load_image_run (f : UploadedFile) (image : Image) (s : SessionState) :
  load_image f image s =
  mkRun (Ok tt)
        (set_active_image (Some (copy image))
           (set_original_image (Some image)
              (set_original_filename (Some (fst (splitext (file_name f)))) s)))
        [sidebar_image image "Original Image"].
Proof. reflexivity. Qed.

(** The download block changes nothing in the state. *)
Lemma st_download_buttons (w : Widgets) (s : SessionState) :
  st (download_buttons w s) = s.
Proof.
  unfold download_buttons. rewrite st_bind.
  assert (Hsave : st ((if save_button w
                       then img_bytes <- get_annotated_image ;;
                            match img_bytes with
                            | Some buf =>
                                emit (download_button "Download Annotated Image" buf
                                        "annotated_image.png" "image/png")
                            | None => ret tt
                            end
                       else ret tt) s) = s).
  { destruct (save_button w); [| reflexivity].
    unfold get_annotated_image, try_except, bind, get, call.
    cbn. destruct (export_figure s); reflexivity. }
  rewrite Hsave.
  destruct (res _); [| reflexivity].
  rewrite st_bind. cbn.
  destruct (bg_removed_image s) as [bg |]; [| reflexivity].
  rewrite st_bind. unfold call. destruct (save_png bg); reflexivity.
Qed.

Lemma res_download_buttons (w : Widgets) (s : SessionState) :
  save_button w = false ->
  (forall bg, bg_removed_image s = Some bg -> exists data, save_png bg = Returns data) ->
  res (download_buttons w s) = Ok tt.
Proof.
  intros Hsave Hpng. unfold download_buttons. rewrite Hsave.
  rewrite res_bind. cbn.
  destruct (bg_removed_image s) as [bg |]; [| reflexivity].
  destruct (Hpng bg eq_refl) as [data Hdata].
  rewrite res_bind. rewrite Hdata. reflexivity.
Qed.

(** The [try] block up to the download buttons, in a run in which an upload
    opens and no button but "Save" is down. *)
Lemma process_upload_to_downloads
    (w : Widgets) (f : UploadedFile) (im : Image) (s : SessionState) :
  Image_open f = Returns im ->
  remove_background_button w = false ->
  clear_all_button w = false ->
  add_point_button w = false ->
  st (process_upload w f s) = loaded w f im s /\
  res (process_upload w f s) = res (download_buttons w (loaded w f im s)).
Proof.
  intros Hopen Hrm Hclear Hadd.
  unfold process_upload. rewrite Hrm, Hclear. cbv zeta.
  rewrite st_bind, res_bind.
  rewrite (verify_and_convert_image_opened f im s Hopen). cbn [res st].
  rewrite !st_bind, !res_bind.
  rewrite load_image_run. cbn [res st ret].
  unfold tool_selection. cbn [modify res st].
  fold (loaded w f im s).
  destruct (display_without_add_point w (loaded w f im s) Hadd) as [Hst Hres].
  rewrite Hres, Hst. rewrite st_download_buttons.
  split; reflexivity.
Qed.

(** The [try] block of a run in which an upload opens and no button is
    down. *)
Lemma process_upload_quiet (w : Widgets) (f : UploadedFile) (im : Image) (s : SessionState) :
  Image_open f = Returns im ->
  remove_background_button w = false ->
  clear_all_button w = false ->
  add_point_button w = false ->
  save_button w = false ->
  (forall bg, bg_removed_image s = Some bg -> exists data, save_png bg = Returns data) ->
  st (process_upload w f s) = loaded w f im s /\ res (process_upload w f s) = Ok tt.
Proof.
  intros Hopen Hrm Hclear Hadd Hsave Hpng.
  destruct (process_upload_to_downloads w f im s Hopen Hrm Hclear Hadd) as [Hst Hres].
  rewrite Hst, Hres.
  rewrite res_download_buttons by (try assumption; exact Hpng).
  split; reflexivity.
Qed.

(** A run in which an upload opens and no button is down. *)
Lemma main_quiet (w : Widgets) (f : UploadedFile) (im : Image) (s : SessionState) :
  file_uploader w = Some f ->
  Image_open f = Returns im ->
  remove_background_button w = false ->
  clear_all_button w = false ->
  add_point_button w = false ->
  save_button w = false ->
  (forall bg, bg_removed_image s = Some bg -> exists data, save_png bg = Returns data) ->
  st (main w s) = loaded w f im s /\ res (main w s) = Ok tt.
Proof.
  intros Hf Hopen Hrm Hclear Hadd Hsave Hpng.
  destruct (process_upload_quiet w f im s Hopen Hrm Hclear Hadd Hsave Hpng) as [Hst Hres].
  unfold main. rewrite Hf.
  rewrite try_except_passes by (intros msg; rewrite Hres; discriminate).
  split; assumption.
Qed.

(** A run whose [try] block raises ends in [reset_session_state]: here the
    saving of the background-removed image fails. *)
Lemma main_error_resets (w : Widgets) (f : UploadedFile) (im bg : Image)
    (s : SessionState) (e : string) :
  file_uploader w = Some f ->
  Image_open f = Returns im ->
  remove_background_button w = false ->
  clear_all_button w = false ->
  add_point_button w = false ->
  save_button w = false ->
  bg_removed_image s = Some bg ->
  save_png bg = Raises e ->
  st (main w s) = st (reset_session_state (loaded w f im s)) /\
  In (st_error ("Error processing image: " ++ e)) (out (main w s)).
Proof.
  intros Hf Hopen Hrm Hclear Hadd Hsave Hbg Hpng.
  destruct (process_upload_to_downloads w f im s Hopen Hrm Hclear Hadd) as [Hst Hres].
  assert (Hraised : res (process_upload w f s) = Raised (Exception e)).
  { rewrite Hres. unfold download_buttons. rewrite Hsave.
    rewrite res_bind. cbn [ret res st].
    rewrite res_bind. cbn [get res st].
    change (bg_removed_image (loaded w f im s)) with (bg_removed_image s).
    rewrite Hbg. rewrite res_bind. rewrite Hpng. reflexivity. }
  unfold main. rewrite Hf.
  rewrite (try_except_catches _ _ s e Hraised).
  rewrite emit_bind. cbn [st out res]. rewrite Hst.
  split; [reflexivity |].
  apply in_or_app. right. left. reflexivity.
Qed.



(** The modes [verify_and_convert_image] converts, whatever the reader. *)
Lemma verify_and_convert_image_modes (f : UploadedFile) (im : Image) (s : SessionState) :
  Image_open f = Returns im ->
  res (verify_and_convert_image f s) =
  Ok (Some (if existsb (String.eqb (mode im)) ["RGBA"; "LA"; "P"]
            then convert "RGB" im else im)).
Proof.
  intros Hopen. rewrite (verify_and_convert_image_opened f im s Hopen). reflexivity.
Qed.

(** ** The two figures *)

(** The export loop draws no label. *)
Lemma redraw_all_annotations_no_text (ds : list Drawing) :
  forallb (fun a => negb (is_text a)) (redraw_all_annotations ds) = true.
Proof.
  induction ds as [| d ds IH]; [reflexivity |].
  cbn [redraw_all_annotations]. rewrite forallb_app, IH.
  destruct (type d =? "line")%string; reflexivity.
Qed.

(** The display loop draws what the export loop draws, and the labels. *)
Lemma draw_existing_annotations_lines (ds : list Drawing) :
  forall arts,
    draw_existing_annotations ds = Returns arts ->
    filter (fun a => negb (is_text a)) arts = redraw_all_annotations ds.
Proof.
  induction ds as [| d ds IH]; intros arts H; cbn in H.
  - injection H as <-. reflexivity.
  - cbn [redraw_all_annotations].
    destruct (draw_existing_annotations ds) as [later | msg].
    + specialize (IH later eq_refl).
      destruct (type d =? "line")%string.
      * destruct (measure_flag d).
        -- unfold measurement_text in H.
           destruct (true_div_2 (x0 d + x1 d)); cbn in H; [| discriminate].
           destruct (true_div_2 (y0 d + y1 d)); cbn in H; [| discriminate].
           destruct (pow_half (squared_distance d)); cbn in H; [| discriminate].
           injection H as <-. cbn. rewrite IH. reflexivity.
        -- cbn in H. injection H as <-. cbn. rewrite IH. reflexivity.
      * cbn in H. injection H as <-. cbn. rewrite IH. reflexivity.
    + destruct (type d =? "line")%string; [destruct (measure_flag d) |].
      * destruct (measurement_text d); cbn in H; discriminate.
      * cbn in H. discriminate.
      * cbn in H. discriminate.
Qed.

(** Every measurement among the drawings has its line and its label among
    the artists of the display loop. *)
Lemma draw_existing_annotations_measurement (ds : list Drawing) :
  forall arts d,
    draw_existing_annotations ds = Returns arts ->
    In d ds ->
    type d = "line" ->
    measure_flag d = true ->
    exists label, measurement_text d = Returns label /\
                  In (line_of d) arts /\ In label arts.
Proof.
  induction ds as [| d0 ds IH]; intros arts d H Hin Htype Hflag; [contradiction |].
  cbn in H.
  destruct (draw_existing_annotations ds) as [later | msg].
  - destruct Hin as [-> | Hin].
    + rewrite Htype, Hflag in H. cbn in H.
      destruct (measurement_text d) as [label | msg]; cbn in H; [| discriminate].
      injection H as <-. exists label.
      split; [reflexivity | split; cbn; auto].
    + destruct (IH later d eq_refl Hin Htype Hflag) as (label & H1 & H2 & H3).
      exists label. split; [exact H1 |].
      destruct (type d0 =? "line")%string; [destruct (measure_flag d0) |];
        try (destruct (measurement_text d0); cbn in H; [| discriminate]);
        cbn in H; injection H as <-; split; simpl; tauto.
  - destruct (type d0 =? "line")%string; [destruct (measure_flag d0) |];
      try (destruct (measurement_text d0)); cbn in H; discriminate.
Qed.

(** The exported figure is the displayed figure without its labels (and at
    the default figure size). *)
Lemma export_is_display_without_labels (s : SessionState) (shown : Figure) :
  display_figure s = Returns shown ->
  exists saved,
    export_figure s = Returns saved /\
    artists saved = filter (fun a => negb (is_text a)) (artists shown) /\
    forallb (fun a => negb (is_text a)) (artists saved) = true.
Proof.
  unfold display_figure, export_figure. intros H.
  destruct (ax_imshow (active_image s)) as [im | msg] eqn:Him; cbn in H; [| discriminate].
  destruct (draw_existing_annotations (drawings s)) as [arts | msg] eqn:Hd;
    cbn in H; [| discriminate].
  injection H as <-. cbn.
  eexists. split; [reflexivity |]. cbn [artists].
  destruct (active_image s); cbn in Him; [| discriminate]. injection Him as <-.
  cbn. rewrite (draw_existing_annotations_lines _ _ Hd).
  split; [reflexivity | apply redraw_all_annotations_no_text].
Qed.

Lemma squared_distance_nonneg (d : Drawing) : 0 <= squared_distance d.
Proof.
  unfold squared_distance.
  pose proof (Z.pow_even_nonneg (x1 d - x0 d) 2 ltac:(exists 1; reflexivity)).
  pose proof (Z.pow_even_nonneg (y1 d - y0 d) 2 ltac:(exists 1; reflexivity)).
  lia.
Qed.

(** Points picked on an image up to [2 ^ 21] pixels wide and high are close
    enough. *)
Lemma squared_distance_small (d : Drawing) :
  0 <= x0 d <= 2 ^ 21 -> 0 <= x1 d <= 2 ^ 21 ->
  0 <= y0 d <= 2 ^ 21 -> 0 <= y1 d <= 2 ^ 21 ->
  squared_distance d < 2 ^ 44.
Proof.
  intros Hx0 Hx1 Hy0 Hy1. unfold squared_distance.
  change (2 ^ 21) with 2097152 in *. change (2 ^ 44) with 17592186044416.
  rewrite !Z.pow_2_r.
  assert (Hx : (x1 d - x0 d) * (x1 d - x0 d) <= 2097152 * 2097152).
  { rewrite <- (Z.abs_square (x1 d - x0 d)).
    apply Z.mul_le_mono_nonneg; lia. }
  assert (Hy : (y1 d - y0 d) * (y1 d - y0 d) <= 2097152 * 2097152).
  { rewrite <- (Z.abs_square (y1 d - y0 d)).
    apply Z.mul_le_mono_nonneg; lia. }
  lia.
Qed.

(** The text of a measurement whose squared distance is below [2 ^ 44]. *)
Lemma measurement_text_label (d : Drawing) (label : Artist) :
  measurement_text d = Returns label ->
  squared_distance d < 2 ^ 44 ->
  exists mid_x mid_y,
    true_div_2 (x0 d + x1 d) = Returns mid_x /\
    true_div_2 (y0 d + y1 d) = Returns mid_y /\
    label = text mid_x mid_y (distance_label (squared_distance d)) (color d) 12.
Proof.
  intros Htext Hsmall. unfold measurement_text in Htext.
  destruct (true_div_2 (x0 d + x1 d)) as [mid_x | msg]; cbn in Htext; [| discriminate].
  destruct (true_div_2 (y0 d + y1 d)) as [mid_y | msg]; cbn in Htext; [| discriminate].
  pose proof (distance_label_computed (squared_distance d)
                (conj (squared_distance_nonneg d) Hsmall)) as Hlabel.
  destruct (pow_half (squared_distance d)) as [distance | msg]; cbn in Htext, Hlabel;
    [| discriminate].
  injection Hlabel as Hlabel. injection Htext as <-.
  exists mid_x, mid_y. rewrite Hlabel. repeat split.
Qed.


(** The second point of a gesture, in full: with the tool on line or measure
    and a start point waiting, [handle_point_addition] appends the line from
    the start point to the new point, in the colour and width of the session
    keys (red and two wide when they are absent), flagged as a measurement
    exactly when the tool is measure; it clears the start point and asks for
    a rerun. *)
Theorem second_point_completes_drawing
    (x y px py : Z) (s : SessionState) :
  current_tool s <> select ->
  start_point s = Some (px, py) ->
  let r := handle_point_addition x y s in
  drawings (st r) =
    (drawings s ++
     [{| type := "line"; x0 := px; y0 := py; x1 := x; y1 := y;
         color := match color_key s with Some c => c | None => "#FF0000" end;
         width := match line_width_key s with Some w => w | None => 2 end;
         measure_flag := Tool_eqb (current_tool s) measure |}])%list /\
  start_point (st r) = None /\
  current_tool (st r) = current_tool s /\
  active_image (st r) = active_image s /\
  res r = Raised RerunException /\
  out r = [].
Proof.
  intros Htool Hstart r. subst r.
  rewrite (handle_point_addition_second x y s (px, py) Htool Hstart).
  repeat split.
Qed.

(** The first point of a gesture: it becomes the start point, and nothing
    else changes. *)
Theorem first_point_starts_gesture (x y : Z) (s : SessionState) :
  current_tool s <> select ->
  start_point s = None ->
  let r := handle_point_addition x y s in
  st r = set_start_point (Some (x, y)) s /\
  drawings (st r) = drawings s /\
  res r = Ok tt /\
  out r = [st_success ("Start point set at (" ++ str_int x ++ ", " ++ str_int y ++ ")")].
Proof.
  intros Htool Hstart r. subst r.
  rewrite (handle_point_addition_first x y s Htool Hstart).
  repeat split.
Qed.

(** ** Where the points come from *)

Lemma handle_point_addition_within (B x y : Z) :
  within B (x, y) -> preserves (drawn_within B) (handle_point_addition x y).
Proof.
  intros Hxy s [Hd Hp].
  destruct (current_tool s) eqn:Htool.
  - rewrite handle_point_addition_select by exact Htool. split; assumption.
  - destruct (start_point s) as [p0 |] eqn:Hstart.
    + rewrite (handle_point_addition_second x y s p0) by congruence.
      split; [| exact I]. cbn [st drawings set_drawings set_start_point].
      apply Forall_app. split; [exact Hd |].
      constructor; [| constructor]. destruct p0. split; [exact Hp | exact Hxy].
    + rewrite handle_point_addition_first by congruence.
      split; [exact Hd |]. cbn. exact Hxy.
  - destruct (start_point s) as [p0 |] eqn:Hstart.
    + rewrite (handle_point_addition_second x y s p0) by congruence.
      split; [| exact I]. cbn [st drawings set_drawings set_start_point].
      apply Forall_app. split; [exact Hd |].
      constructor; [| constructor]. destruct p0. split; [exact Hp | exact Hxy].
    + rewrite handle_point_addition_first by congruence.
      split; [exact Hd |]. cbn. exact Hxy.
Qed.

Lemma main_within (B : Z) (w : Widgets) :
  within B (x_slider w, y_slider w) -> preserves (drawn_within B) (main w).
Proof.
  intros Hw.
  unfold main, process_upload, verify_and_convert_image, load_image, remove_background,
    tool_selection, clear_all_annotations, display_image_with_drawing_tools,
    download_buttons, get_annotated_image, reset_session_state.
  preserve;
    try (apply handle_point_addition_within; assumption);
    try (match goal with H : drawn_within _ _ |- _ => destruct H as (Hd & Hp) end;
         split; cbn; solve [assumption | constructor | exact I]).
Qed.


(** ** What a session never does *)

(** No run assigns the keys ['color'] and ['line_width'], so every drawing of
    every session is red and two wide, whatever the colour picker and the
    width slider show. *)
Theorem session_draws_in_default_style (ws : list Widgets) :
  let s := session ws initial_session_state in
  color_key s = None /\ line_width_key s = None /\
  Forall (fun d => color d = "#FF0000" /\ width d = 2) (drawings s).
Proof.
  apply (session_unstyled ws initial_session_state).
  repeat split; constructor.
Qed.

(** A run with "Clear All Annotations" down, in which the upload opens,
    leaves no drawing and no start point. *)
Theorem clear_all_run_empties
    (w : Widgets) (f : UploadedFile) (im : Image) (s : SessionState) :
  file_uploader w = Some f ->
  Image_open f = Returns im ->
  remove_background_button w = false ->
  clear_all_button w = true ->
  add_point_button w = false ->
  drawings (st (main w s)) = [] /\ start_point (st (main w s)) = None.
Proof.
  intros Hf Hopen Hrm Hclear Hadd.
  assert (Hbody : drawings (st (process_upload w f s)) = [] /\
                  start_point (st (process_upload w f s)) = None).
  { unfold process_upload. rewrite Hrm, Hclear. cbv zeta.
    rewrite st_bind.
    rewrite (verify_and_convert_image_opened f im s Hopen). cbn [res st].
    rewrite !st_bind.
    rewrite load_image_run. cbn [res st ret].
    unfold tool_selection, clear_all_annotations. cbn [modify res st bind].
    match goal with
    | |- context [display_image_with_drawing_tools w ?s1] =>
        destruct (display_without_add_point w s1 Hadd) as [Hst Hres];
        rewrite Hres, Hst
    end.
    rewrite st_download_buttons. split; reflexivity. }
  unfold main. rewrite Hf. rewrite st_try_except.
  destruct (res (process_upload w f s)) as [a | [msg |]]; try exact Hbody.
  rewrite emit_bind. cbn [st]. split; reflexivity.
Qed.

(** A run in which background removal fails ends in the state of the same
    run without the click, and shows the failure. *)
Theorem failed_removal_run
    (w w' : Widgets) (f : UploadedFile) (im : Image) (s : SessionState) (e : string) :
  file_uploader w = Some f ->
  Image_open f = Returns im ->
  remove (verified im) = Raises e ->
  remove_background_button w = true ->
  file_uploader w' = Some f ->
  remove_background_button w' = false ->
  annotation_tools_radio w' = annotation_tools_radio w ->
  clear_all_button w' = clear_all_button w ->
  x_slider w' = x_slider w ->
  y_slider w' = y_slider w ->
  add_point_button w' = add_point_button w ->
  save_button w' = save_button w ->
  st (main w s) = st (main w' s) /\
  res (main w s) = res (main w' s) /\
  In (st_error ("Background removal failed: " ++ e)) (out (main w s)).
Proof.
  intros Hf Hopen Hfail Hrm Hf' Hrm' Hradio Hclear Hx Hy Hadd Hsave.
  assert (Hblock : forall s1, remove_background (verified im) s1 =
                     mkRun (Ok tt) s1 [st_error ("Background removal failed: " ++ e)])
    by (intros s1; apply remove_background_failed, Hfail).
  assert (Hdisplay : display_image_with_drawing_tools w = display_image_with_drawing_tools w').
  { unfold display_image_with_drawing_tools. rewrite Hx, Hy, Hadd. reflexivity. }
  assert (Hdown : download_buttons w = download_buttons w').
  { unfold download_buttons. rewrite Hsave. reflexivity. }
  assert (Hbody : st (process_upload w f s) = st (process_upload w' f s) /\
                  res (process_upload w f s) = res (process_upload w' f s) /\
                  In (st_error ("Background removal failed: " ++ e))
                     (out (process_upload w f s))).
  { unfold process_upload. rewrite Hrm, Hrm'. cbv zeta.
    unfold tool_selection. rewrite Hradio, Hclear, Hdisplay, Hdown.
    rewrite !(st_bind (verify_and_convert_image f)),
            !(res_bind (verify_and_convert_image f)),
            !(out_bind (verify_and_convert_image f)).
    rewrite (verify_and_convert_image_opened f im s Hopen). cbn [res st out].
    rewrite !(st_bind (load_image f (verified im))),
            !(res_bind (load_image f (verified im))),
            !(out_bind (load_image f (verified im))).
    rewrite load_image_run. cbn [res st out].
    rewrite !(st_bind (remove_background (verified im))),
            !(res_bind (remove_background (verified im))),
            !(out_bind (remove_background (verified im))).
    rewrite Hblock. cbn [res st out].
    rewrite !(st_bind (ret tt)), !(res_bind (ret tt)). cbn [ret res st out].
    split; [reflexivity | split; [reflexivity |]].
    right. left. reflexivity. }
  destruct Hbody as (Hst & Hres & Hout).
  unfold main. rewrite Hf, Hf'.
  rewrite !st_try_except, !res_try_except, out_try_except.
  rewrite Hres, Hst.
  split; [reflexivity | split; [reflexivity |]].
  destruct (res (process_upload w' f s)) as [a | [msg |]]; try exact Hout.
  apply in_or_app. left. exact Hout.
Qed.

(** ** Runs of [main], block by block *)

Lemma run_eta {A : Type} (r : Run A) : mkRun (res r) (st r) (out r) = r.
Proof. destruct r. reflexivity. Qed.

Lemma bind_assoc {A B D : Type} (m : M A) (k : A -> M B) (h : B -> M D)
    (s : SessionState) :
  bind (bind m k) h s = bind m (fun a => bind (k a) h) s.
Proof.
  unfold bind. destruct (res (m s)) as [a | e]; cbn [res st out]; [| reflexivity].
  destruct (res (k a (st (m s)))) as [b | e]; cbn [res st out]; [| reflexivity].
  destruct (res (h b (st (k a (st (m s)))))); rewrite app_assoc; reflexivity.
Qed.

Lemma bind_ext {A B : Type} (m : M A) (k k' : A -> M B) (s : SessionState) :
  (forall a s', k a s' = k' a s') -> bind m k s = bind m k' s.
Proof.
  intros H. unfold bind. destruct (res (m s)) as [a | e]; [| reflexivity].
  rewrite H. reflexivity.
Qed.

Lemma res_load_image (f : UploadedFile) (image : Image) (s : SessionState) :
  res (load_image f image s) = Ok tt.
Proof. rewrite load_image_run. reflexivity. Qed.

(** The background removal block always returns: what [remove] raises is
    caught. *)
Lemma res_remove_background (image : Image) (s : SessionState) :
  res (remove_background image s) = Ok tt.
Proof.
  destruct (remove image) as [bg | e] eqn:Hremove.
  - unfold remove_background. rewrite res_try_except, res_bind.
    unfold call. rewrite Hremove. reflexivity.
  - rewrite (remove_background_failed image s e Hremove). reflexivity.
Qed.

Lemma res_upload_prelude (w : Widgets) (f : UploadedFile) (image : Image)
    (s : SessionState) :
  res (upload_prelude w f image s) = Ok tt.
Proof.
  unfold upload_prelude.
  rewrite res_bind, res_load_image.
  rewrite res_bind.
  assert (Hrm : forall s1, res ((if remove_background_button w
                                 then remove_background image else ret tt) s1) = Ok tt)
    by (intros s1; destruct (remove_background_button w);
        [apply res_remove_background | reflexivity]).
  rewrite Hrm. rewrite res_bind. unfold tool_selection at 1. cbn [modify res].
  destruct (clear_all_button w); reflexivity.
Qed.

(** The [try] block of a run whose upload opens: the prelude, then the
    display, then the download buttons. *)
Lemma process_upload_split (w : Widgets) (f : UploadedFile) (im : Image)
    (s : SessionState) :
  Image_open f = Returns im ->
  process_upload w f s =
  bind (upload_prelude w f (verified im))
       (fun _ => display_image_with_drawing_tools w ;; download_buttons w) s.
Proof.
  intros Hopen. unfold process_upload.
  unfold bind at 1. rewrite (verify_and_convert_image_opened f im s Hopen).
  cbn [res st out app]. cbv zeta. rewrite run_eta.
  unfold upload_prelude. symmetry.
  rewrite bind_assoc. apply bind_ext. intros _ s1.
  rewrite bind_assoc. apply bind_ext. intros _ s2.
  rewrite bind_assoc. reflexivity.
Qed.

Lemma st_process_upload (w : Widgets) (f : UploadedFile) (im : Image) (s : SessionState) :
  Image_open f = Returns im ->
  st (process_upload w f s) =
  st (display_image_with_drawing_tools w (before_display w f im s)).
Proof.
  intros Hopen. rewrite (process_upload_split w f im s Hopen).
  rewrite st_bind, res_upload_prelude. fold (before_display w f im s).
  rewrite st_bind.
  destruct (res (display_image_with_drawing_tools w (before_display w f im s)));
    [apply st_download_buttons | reflexivity].
Qed.

Lemma res_process_upload (w : Widgets) (f : UploadedFile) (im : Image) (s : SessionState) :
  Image_open f = Returns im ->
  res (process_upload w f s) =
  match res (display_image_with_drawing_tools w (before_display w f im s)) with
  | Ok _ => res (download_buttons w
                   (st (display_image_with_drawing_tools w (before_display w f im s))))
  | Raised e => Raised e
  end.
Proof.
  intros Hopen. rewrite (process_upload_split w f im s Hopen).
  rewrite res_bind, res_upload_prelude. fold (before_display w f im s).
  rewrite res_bind. reflexivity.
Qed.

Lemma out_process_upload (w : Widgets) (f : UploadedFile) (im : Image) (s : SessionState) :
  Image_open f = Returns im ->
  out (process_upload w f s) =
  (out (upload_prelude w f (verified im) s) ++
   out (display_image_with_drawing_tools w (before_display w f im s)) ++
   match res (display_image_with_drawing_tools w (before_display w f im s)) with
   | Ok _ => out (download_buttons w
                    (st (display_image_with_drawing_tools w (before_display w f im s))))
   | Raised _ => []
   end)%list.
Proof.
  intros Hopen. rewrite (process_upload_split w f im s Hopen).
  rewrite out_bind, res_upload_prelude. fold (before_display w f im s).
  rewrite out_bind.
  destruct (res (display_image_with_drawing_tools w (before_display w f im s)));
    [reflexivity | rewrite app_nil_r; reflexivity].
Qed.

(** [handle_point_addition] raises nothing but the rerun request. *)
Lemma handle_point_addition_no_exception (x y : Z) (s : SessionState) (msg : string) :
  res (handle_point_addition x y s) <> Raised (Exception msg).
Proof.
  destruct (current_tool s) eqn:Htool.
  - rewrite handle_point_addition_select by exact Htool. discriminate.
  - destruct (start_point s) as [p0 |] eqn:Hstart.
    + rewrite (handle_point_addition_second x y s p0) by congruence. discriminate.
    + rewrite handle_point_addition_first by congruence. discriminate.
  - destruct (start_point s) as [p0 |] eqn:Hstart.
    + rewrite (handle_point_addition_second x y s p0) by congruence. discriminate.
    + rewrite handle_point_addition_first by congruence. discriminate.
Qed.

(** The display block, case by case. *)
Lemma display_fails (w : Widgets) (s : SessionState) (e : string) :
  display_figure s = Raises e ->
  display_image_with_drawing_tools w s =
  mkRun (Ok tt) s [st_error ("Display error: " ++ e)].
Proof.
  intros Hfig. unfold display_image_with_drawing_tools, try_except.
  rewrite res_bind, st_bind, out_bind. cbn [get res st out].
  rewrite res_bind, st_bind, out_bind. unfold call. rewrite Hfig. reflexivity.
Qed.

Lemma display_shows (w : Widgets) (s : SessionState) (fig : Figure) :
  display_figure s = Returns fig ->
  display_image_with_drawing_tools w s =
  if add_point_button w
  then mkRun (res (handle_point_addition (x_slider w) (y_slider w) s))
             (st (handle_point_addition (x_slider w) (y_slider w) s))
             (st_pyplot fig :: out (handle_point_addition (x_slider w) (y_slider w) s))
  else mkRun (Ok tt) s [st_pyplot fig].
Proof.
  intros Hfig. unfold display_image_with_drawing_tools.
  match goal with |- try_except ?b _ _ = _ => set (body := b) end.
  assert (Hbody :
    body s =
    if add_point_button w
    then mkRun (res (handle_point_addition (x_slider w) (y_slider w) s))
               (st (handle_point_addition (x_slider w) (y_slider w) s))
               (st_pyplot fig :: out (handle_point_addition (x_slider w) (y_slider w) s))
    else mkRun (Ok tt) s [st_pyplot fig]).
  { subst body. unfold bind at 1. cbn [get res st out app].
    unfold bind at 1. unfold call. rewrite Hfig. cbn [ret res st out app].
    rewrite emit_bind. cbv zeta.
    destruct (add_point_button w); reflexivity. }
  rewrite try_except_passes; [exact Hbody |].
  intros msg. rewrite Hbody.
  destruct (add_point_button w); [apply handle_point_addition_no_exception | discriminate].
Qed.

(** [get_annotated_image] catches what the figure raises: it returns the
    buffer or [None] and leaves the state as it was. *)
Lemma get_annotated_image_run (s : SessionState) :
  get_annotated_image s =
  match export_figure s with
  | Returns fig => mkRun (Ok (Some (savefig fig 300))) s []
  | Raises e => mkRun (Ok None) s [st_error ("Error generating annotated image: " ++ e)]
  end.
Proof.
  unfold get_annotated_image, try_except, bind, get, call. cbn [res st out].
  destruct (export_figure s); reflexivity.
Qed.

(** The download block never asks for a rerun. *)
Lemma res_download_buttons_cases (w : Widgets) (s : SessionState) :
  res (download_buttons w s) = Ok tt \/
  exists bg e, bg_removed_image s = Some bg /\ save_png bg = Raises e /\
               res (download_buttons w s) = Raised (Exception e).
Proof.
  unfold download_buttons. rewrite res_bind.
  assert (Hsave : forall s1,
    (if save_button w
     then img_bytes <- get_annotated_image ;;
          match img_bytes with
          | Some buf =>
              emit (download_button "Download Annotated Image" buf
                      "annotated_image.png" "image/png")
          | None => ret tt
          end
     else ret tt) s1 =
    mkRun (Ok tt) s1
      (if save_button w
       then match export_figure s1 with
            | Returns fig =>
                [download_button "Download Annotated Image" (savefig fig 300)
                   "annotated_image.png" "image/png"]
            | Raises e => [st_error ("Error generating annotated image: " ++ e)]
            end
       else [])).
  { intros s1. destruct (save_button w); [| reflexivity].
    unfold bind. rewrite get_annotated_image_run.
    destruct (export_figure s1); reflexivity. }
  rewrite Hsave. cbn [res st].
  rewrite res_bind. cbn [get res st].
  destruct (bg_removed_image s) as [bg |]; [| left; reflexivity].
  rewrite res_bind. unfold call.
  destruct (save_png bg) as [data | e] eqn:Hpng; [left; reflexivity |].
  right. exists bg, e. split; [reflexivity | split; [exact Hpng | reflexivity]].
Qed.

Lemma res_reset_session_state (s : SessionState) : res (reset_session_state s) = Ok tt.
Proof. reflexivity. Qed.

(** No [Exception] leaves [main]: a run returns, or asks for a rerun.  It
    asks for a rerun only when "Add Point" is down with the radio on line or
    measure and the point completes a gesture; the start point is then
    empty. *)
Theorem main_raises_only_rerun (w : Widgets) (s : SessionState) :
  (res (main w s) = Ok tt \/ res (main w s) = Raised RerunException) /\
  (res (main w s) = Raised RerunException ->
   add_point_button w = true /\
   annotation_tools_radio w <> select /\
   current_tool (st (main w s)) = annotation_tools_radio w /\
   start_point (st (main w s)) = None).
Proof.
  unfold main. destruct (file_uploader w) as [f |]; [| split; [left; reflexivity | discriminate]].
  rewrite res_try_except, st_try_except.
  destruct (Image_open f) as [im | e] eqn:Hopen.
  - rewrite (res_process_upload w f im s Hopen), (st_process_upload w f im s Hopen).
    set (sd := before_display w f im s).
    assert (Htool : current_tool sd = annotation_tools_radio w).
    { subst sd. unfold before_display, upload_prelude.
      rewrite st_bind, res_load_image. rewrite st_bind.
      assert (Hrm : forall s1,
                res ((if remove_background_button w
                      then remove_background (verified im) else ret tt) s1) = Ok tt)
        by (intros s1; destruct (remove_background_button w);
            [apply res_remove_background | reflexivity]).
      rewrite Hrm. rewrite st_bind. unfold tool_selection. cbn [modify res st].
      destruct (clear_all_button w); reflexivity. }
    destruct (display_figure sd) as [fig | e] eqn:Hfig.
    + rewrite (display_shows w sd fig Hfig).
      destruct (add_point_button w) eqn:Hadd; cbn [res st].
      * destruct (current_tool sd) eqn:Hcur.
        -- rewrite handle_point_addition_select by exact Hcur. cbn [res st].
           destruct (res_download_buttons_cases w sd) as [-> | (bg & e & _ & _ & ->)];
             (split; [left; reflexivity | discriminate]).
        -- destruct (start_point sd) as [p0 |] eqn:Hstart.
           ++ rewrite (handle_point_addition_second _ _ sd p0) by congruence.
              cbn [res st]. split; [right; reflexivity |].
              intros _. rewrite <- Htool.
              split; [reflexivity | split; [discriminate | split; [exact Hcur | reflexivity]]].
           ++ rewrite handle_point_addition_first by congruence. cbn [res st].
              destruct (res_download_buttons_cases w (set_start_point
                          (Some (x_slider w, y_slider w)) sd))
                as [-> | (bg & e & _ & _ & ->)];
                (split; [left; reflexivity | discriminate]).
        -- destruct (start_point sd) as [p0 |] eqn:Hstart.
           ++ rewrite (handle_point_addition_second _ _ sd p0) by congruence.
              cbn [res st]. split; [right; reflexivity |].
              intros _. rewrite <- Htool.
              split; [reflexivity | split; [discriminate | split; [exact Hcur | reflexivity]]].
           ++ rewrite handle_point_addition_first by congruence. cbn [res st].
              destruct (res_download_buttons_cases w (set_start_point
                          (Some (x_slider w, y_slider w)) sd))
                as [-> | (bg & e & _ & _ & ->)];
                (split; [left; reflexivity | discriminate]).
      * destruct (res_download_buttons_cases w sd) as [-> | (bg & e & _ & _ & ->)];
          (split; [left; reflexivity | discriminate]).
    + rewrite (display_fails w sd e Hfig). cbn [res st].
      destruct (res_download_buttons_cases w sd) as [-> | (bg & e' & _ & _ & ->)];
        (split; [left; reflexivity | discriminate]).
  - unfold process_upload. rewrite res_bind, st_bind.
    rewrite (verify_and_convert_image_failed f e s Hopen). cbn [res st].
    split; [left; reflexivity | discriminate].
Qed.

(** A run whose upload does not open changes nothing, whatever buttons are
    down: it shows the two error messages and returns. *)
Theorem unreadable_upload_changes_nothing
    (w : Widgets) (f : UploadedFile) (e : string) (s : SessionState) :
  file_uploader w = Some f ->
  Image_open f = Raises e ->
  main w s =
  mkRun (Ok tt) s [st_error ("Invalid image file: " ++ e); st_error "Invalid image file"].
Proof.
  intros Hf Hopen. unfold main. rewrite Hf.
  assert (Hbody : process_upload w f s =
                  mkRun (Ok tt) s [st_error ("Invalid image file: " ++ e);
                                   st_error "Invalid image file"]).
  { unfold process_upload. unfold bind.
    rewrite (verify_and_convert_image_failed f e s Hopen). reflexivity. }
  rewrite try_except_passes; [exact Hbody |].
  intros msg. rewrite Hbody. discriminate.
Qed.

(** The state the display starts from, written out. *)
Lemma before_display_eq (w : Widgets) (f : UploadedFile) (im : Image) (s : SessionState) :
  before_display w f im s =
  let s1 := set_active_image (Some (copy (verified im)))
              (set_original_image (Some (verified im))
                 (set_original_filename (Some (fst (splitext (file_name f)))) s)) in
  let s2 := if remove_background_button w
            then match remove (verified im) with
                 | Returns bg => set_active_image (Some bg)
                                   (set_bg_removed_image (Some bg) s1)
                 | Raises _ => s1
                 end
            else s1 in
  let s3 := set_current_tool (annotation_tools_radio w) s2 in
  if clear_all_button w then set_start_point None (set_drawings [] s3) else s3.
Proof.
  unfold before_display, upload_prelude. cbv zeta.
  rewrite st_bind, load_image_run. cbn [res st].
  set (s1 := set_active_image _ _).
  rewrite st_bind.
  assert (Hrm : (if remove_background_button w
                 then remove_background (verified im) else ret tt) s1 =
                mkRun (Ok tt)
                  (if remove_background_button w
                   then match remove (verified im) with
                        | Returns bg => set_active_image (Some bg)
                                          (set_bg_removed_image (Some bg) s1)
                        | Raises _ => s1
                        end
                   else s1)
                  (if remove_background_button w
                   then match remove (verified im) with
                        | Returns bg => [sidebar_image bg "Background Removed"]
                        | Raises e => [st_error ("Background removal failed: " ++ e)]
                        end
                   else [])).
  { destruct (remove_background_button w); [| reflexivity].
    destruct (remove (verified im)) as [bg | e] eqn:Hremove.
    - unfold remove_background, try_except, bind, call. rewrite Hremove. reflexivity.
    - apply remove_background_failed, Hremove. }
  rewrite Hrm. cbn [res st].
  rewrite st_bind. unfold tool_selection. cbn [modify res st].
  destruct (clear_all_button w); reflexivity.
Qed.

(** ** The download block, written out *)

Lemma download_buttons_run (w : Widgets) (s : SessionState) :
  download_buttons w s =
  mkRun
    (match bg_removed_image s with
     | Some bg => match save_png bg with
                  | Returns _ => Ok tt
                  | Raises e => Raised (Exception e)
                  end
     | None => Ok tt
     end)
    s
    ((if save_button w
      then match export_figure s with
           | Returns fig =>
               [download_button "Download Annotated Image" (savefig fig 300)
                  "annotated_image.png" "image/png"]
           | Raises e => [st_error ("Error generating annotated image: " ++ e)]
           end
      else []) ++
     match bg_removed_image s with
     | Some bg =>
         match save_png bg with
         | Returns buffered =>
             [download_button "Download BG-Removed Image" (image_bytes buffered)
                (match original_filename s with Some n => n | None => "None" end
                 ++ "_bg_removed.png")
                "image/png"]
         | Raises _ => []
         end
     | None => []
     end)%list.
Proof.
  unfold download_buttons.
  assert (Hsave :
    (if save_button w
     then img_bytes <- get_annotated_image ;;
          match img_bytes with
          | Some buf =>
              emit (download_button "Download Annotated Image" buf
                      "annotated_image.png" "image/png")
          | None => ret tt
          end
     else ret tt) s =
    mkRun (Ok tt) s
      (if save_button w
       then match export_figure s with
            | Returns fig =>
                [download_button "Download Annotated Image" (savefig fig 300)
                   "annotated_image.png" "image/png"]
            | Raises e => [st_error ("Error generating annotated image: " ++ e)]
            end
       else [])).
  { destruct (save_button w); [| reflexivity].
    unfold bind. rewrite get_annotated_image_run.
    destruct (export_figure s); reflexivity. }
  assert (Hget : forall k : SessionState -> M unit, bind get k s = k s s).
  { intros k. unfold bind, get. cbn [res st out app]. apply run_eta. }
  unfold bind at 1. rewrite Hsave. cbn [res st out]. rewrite Hget.
  destruct (bg_removed_image s) as [bg |]; [| reflexivity].
  unfold bind, call. destruct (save_png bg) as [data | e]; reflexivity.
Qed.

(** ** Runs of [main] whose upload opens *)

(** The run returns when the display returns and the background-removed
    image, if there is one, can be saved. *)
Lemma main_opened_returns (w : Widgets) (f : UploadedFile) (im : Image) (s : SessionState) :
  file_uploader w = Some f ->
  Image_open f = Returns im ->
  res (display_image_with_drawing_tools w (before_display w f im s)) = Ok tt ->
  (forall bg, bg_removed_image
                (st (display_image_with_drawing_tools w (before_display w f im s))) = Some bg ->
              exists data, save_png bg = Returns data) ->
  main w s =
  mkRun (Ok tt)
    (st (display_image_with_drawing_tools w (before_display w f im s)))
    (out (upload_prelude w f (verified im) s) ++
     out (display_image_with_drawing_tools w (before_display w f im s)) ++
     out (download_buttons w
            (st (display_image_with_drawing_tools w (before_display w f im s))))).
Proof.
  intros Hf Hopen Hd Hbg. unfold main. rewrite Hf.
  set (sd := before_display w f im s) in *.
  set (d := display_image_with_drawing_tools w sd) in *.
  assert (Hres : res (download_buttons w (st d)) = Ok tt).
  { rewrite download_buttons_run. cbn [res].
    destruct (bg_removed_image (st d)) as [bg |] eqn:E; [| reflexivity].
    destruct (Hbg bg eq_refl) as [data ->]. reflexivity. }
  assert (Hbody : process_upload w f s =
                  mkRun (Ok tt) (st d)
                    (out (upload_prelude w f (verified im) s) ++ out d ++
                     out (download_buttons w (st d)))).
  { rewrite <- (run_eta (process_upload w f s)).
    rewrite (res_process_upload w f im s Hopen), (st_process_upload w f im s Hopen),
      (out_process_upload w f im s Hopen).
    fold sd. fold d. rewrite Hd, Hres. reflexivity. }
  rewrite try_except_passes; [exact Hbody |].
  intros msg. rewrite Hbody. discriminate.
Qed.

(** The run asks for a rerun when the display does; the download buttons are
    not reached. *)
Lemma main_opened_reruns (w : Widgets) (f : UploadedFile) (im : Image) (s : SessionState) :
  file_uploader w = Some f ->
  Image_open f = Returns im ->
  res (display_image_with_drawing_tools w (before_display w f im s)) = Raised RerunException ->
  main w s =
  mkRun (Raised RerunException)
    (st (display_image_with_drawing_tools w (before_display w f im s)))
    (out (upload_prelude w f (verified im) s) ++
     out (display_image_with_drawing_tools w (before_display w f im s))).
Proof.
  intros Hf Hopen Hd. unfold main. rewrite Hf.
  set (sd := before_display w f im s) in *.
  set (d := display_image_with_drawing_tools w sd) in *.
  assert (Hbody : process_upload w f s =
                  mkRun (Raised RerunException) (st d)
                    (out (upload_prelude w f (verified im) s) ++ out d)).
  { rewrite <- (run_eta (process_upload w f s)).
    rewrite (res_process_upload w f im s Hopen), (st_process_upload w f im s Hopen),
      (out_process_upload w f im s Hopen).
    fold sd. fold d. rewrite Hd, app_nil_r. reflexivity. }
  rewrite try_except_passes; [exact Hbody |].
  intros msg. rewrite Hbody. discriminate.
Qed.

(** What the [try] block shows stays on the page, however the run ends. *)
Lemma out_main_opened (w : Widgets) (f : UploadedFile) (s : SessionState) :
  file_uploader w = Some f ->
  exists tail, out (main w s) = (out (process_upload w f s) ++ tail)%list.
Proof.
  intros Hf. unfold main. rewrite Hf, out_try_except.
  destruct (res (process_upload w f s)) as [a | [msg |]].
  - exists []. rewrite app_nil_r. reflexivity.
  - eexists. reflexivity.
  - exists []. rewrite app_nil_r. reflexivity.
Qed.

(** ** The state the display starts from *)

Lemma before_display_within (B : Z) (w : Widgets) (f : UploadedFile) (im : Image)
    (s : SessionState) :
  drawn_within B s -> drawn_within B (before_display w f im s).
Proof.
  intros [Hd Hp]. rewrite before_display_eq. cbv zeta.
  destruct (remove_background_button w); [destruct (remove (verified im)) |];
    destruct (clear_all_button w); split; cbn; solve [assumption | constructor].
Qed.

Lemma before_display_active (w : Widgets) (f : UploadedFile) (im : Image)
    (s : SessionState) :
  exists img, active_image (before_display w f im s) = Some img.
Proof.
  rewrite before_display_eq. cbv zeta.
  destruct (remove_background_button w); [destruct (remove (verified im)) |];
    destruct (clear_all_button w); eexists; reflexivity.
Qed.

Lemma before_display_plain (w : Widgets) (f : UploadedFile) (im : Image)
    (s : SessionState) :
  remove_background_button w = false ->
  clear_all_button w = false ->
  before_display w f im s = loaded w f im s.
Proof.
  intros Hrm Hclear. rewrite before_display_eq, Hrm, Hclear. reflexivity.
Qed.

(** ** Figures that do not fail *)

Lemma measurement_text_returns (B : Z) (d : Drawing) :
  B <= 2 ^ 21 ->
  within B (x0 d, y0 d) -> within B (x1 d, y1 d) ->
  exists label, measurement_text d = Returns label.
Proof.
  intros HB [Hx0 Hy0] [Hx1 Hy1]. cbn [fst snd] in *.
  assert (Hsmall : squared_distance d < 2 ^ 44) by (apply squared_distance_small; lia).
  change (2 ^ 21) with 2097152 in HB.
  destruct (true_div_2_returns (x0 d + x1 d)) as [mid_x Hx];
    [change (2 ^ 53) with 9007199254740992; lia |].
  destruct (true_div_2_returns (y0 d + y1 d)) as [mid_y Hy];
    [change (2 ^ 53) with 9007199254740992; lia |].
  destruct (pow_half_returns (squared_distance d)) as [distance Hdist];
    [split; [apply squared_distance_nonneg | exact Hsmall] |].
  unfold measurement_text. rewrite Hx, Hy, Hdist. eexists. reflexivity.
Qed.

Lemma draw_existing_annotations_returns (B : Z) (ds : list Drawing) :
  B <= 2 ^ 21 ->
  Forall (fun d => within B (x0 d, y0 d) /\ within B (x1 d, y1 d)) ds ->
  exists arts, draw_existing_annotations ds = Returns arts.
Proof.
  intros HB Hds. induction Hds as [| d ds [H0 H1] Hds [later IH]].
  - eexists. reflexivity.
  - cbn [draw_existing_annotations]. rewrite IH.
    destruct (measurement_text_returns B d HB H0 H1) as [label Hlabel].
    rewrite Hlabel.
    destruct (type d =? "line")%string; [destruct (measure_flag d) |];
      eexists; reflexivity.
Qed.

Lemma display_figure_returns (B : Z) (s : SessionState) (img : Image) :
  B <= 2 ^ 21 ->
  drawn_within B s ->
  active_image s = Some img ->
  exists arts,
    draw_existing_annotations (drawings s) = Returns arts /\
    display_figure s =
    Returns {| figsize := Some (10, 10); artists := imshow img :: axis_off :: arts |}.
Proof.
  intros HB [Hd _] Himg.
  destruct (draw_existing_annotations_returns B (drawings s) HB Hd) as [arts Harts].
  exists arts. split; [exact Harts |].
  unfold display_figure. rewrite Himg, Harts. reflexivity.
Qed.

(** What the blocks before the display show. *)
Lemma out_upload_prelude (w : Widgets) (f : UploadedFile) (image : Image)
    (s : SessionState) :
  out (upload_prelude w f image s) =
  sidebar_image image "Original Image" ::
  (if remove_background_button w
   then match remove image with
        | Returns bg => [sidebar_image bg "Background Removed"]
        | Raises e => [st_error ("Background removal failed: " ++ e)]
        end
   else []).
Proof.
  unfold upload_prelude.
  rewrite out_bind, load_image_run. cbn [res st out].
  set (s1 := set_active_image _ _).
  assert (Hrm : (if remove_background_button w
                 then remove_background image else ret tt) s1 =
                mkRun (Ok tt)
                  (if remove_background_button w
                   then match remove image with
                        | Returns bg => set_active_image (Some bg)
                                          (set_bg_removed_image (Some bg) s1)
                        | Raises _ => s1
                        end
                   else s1)
                  (if remove_background_button w
                   then match remove image with
                        | Returns bg => [sidebar_image bg "Background Removed"]
                        | Raises e => [st_error ("Background removal failed: " ++ e)]
                        end
                   else [])).
  { destruct (remove_background_button w); [| reflexivity].
    destruct (remove image) as [bg | e] eqn:Hremove.
    - unfold remove_background, try_except, bind, call. rewrite Hremove. reflexivity.
    - apply remove_background_failed, Hremove. }
  rewrite out_bind, Hrm. cbn [res st out].
  rewrite out_bind. unfold tool_selection. cbn [modify res st out].
  destruct (clear_all_button w); cbn [out clear_all_annotations bind modify res st app];
    rewrite ?app_nil_r; reflexivity.
Qed.

(** A run in which the upload opens and "Add Point" is up. *)
Lemma main_without_add_point (w : Widgets) (f : UploadedFile) (im : Image)
    (s : SessionState) :
  file_uploader w = Some f ->
  Image_open f = Returns im ->
  add_point_button w = false ->
  (forall bg, bg_removed_image (before_display w f im s) = Some bg ->
              exists data, save_png bg = Returns data) ->
  main w s =
  mkRun (Ok tt) (before_display w f im s)
    (out (upload_prelude w f (verified im) s) ++
     out (display_image_with_drawing_tools w (before_display w f im s)) ++
     out (download_buttons w (before_display w f im s))).
Proof.
  intros Hf Hopen Hadd Hbg.
  destruct (display_without_add_point w (before_display w f im s) Hadd) as [Hst Hres].
  rewrite (main_opened_returns w f im s Hf Hopen Hres) by (rewrite Hst; exact Hbg).
  rewrite Hst. reflexivity.
Qed.

(** The display block when "Add Point" gives the first or the second point
    of a gesture. *)
Lemma display_first_point (w : Widgets) (s : SessionState) (fig : Figure) :
  display_figure s = Returns fig ->
  add_point_button w = true ->
  current_tool s <> select ->
  start_point s = None ->
  display_image_with_drawing_tools w s =
  mkRun (Ok tt) (set_start_point (Some (x_slider w, y_slider w)) s)
    [st_pyplot fig;
     st_success ("Start point set at (" ++ str_int (x_slider w) ++ ", "
                 ++ str_int (y_slider w) ++ ")")].
Proof.
  intros Hfig Hadd Htool Hstart.
  rewrite (display_shows w s fig Hfig), Hadd.
  rewrite (handle_point_addition_first _ _ s Htool Hstart). reflexivity.
Qed.

Lemma display_second_point (w : Widgets) (s : SessionState) (fig : Figure) (p0 : Z * Z) :
  display_figure s = Returns fig ->
  add_point_button w = true ->
  current_tool s <> select ->
  start_point s = Some p0 ->
  display_image_with_drawing_tools w s =
  mkRun (Raised RerunException)
    (set_start_point None
       (set_drawings (drawings s ++ [completed s p0 (x_slider w, y_slider w)]) s))
    [st_pyplot fig].
Proof.
  intros Hfig Hadd Htool Hstart.
  rewrite (display_shows w s fig Hfig), Hadd.
  rewrite (handle_point_addition_second _ _ s p0 Htool Hstart). reflexivity.
Qed.

(** The display block adds at most one drawing and removes none. *)
Lemma display_appends (w : Widgets) (s : SessionState) :
  exists new,
    drawings (st (display_image_with_drawing_tools w s)) = (drawings s ++ new)%list /\
    (List.length new <= 1)%nat.
Proof.
  destruct (display_figure s) as [fig | e] eqn:Hfig.
  - rewrite (display_shows w s fig Hfig).
    destruct (add_point_button w); [| exists []; rewrite app_nil_r; split; [reflexivity | cbn; lia]].
    cbn [st].
    destruct (current_tool s) eqn:Htool.
    + rewrite handle_point_addition_select by exact Htool.
      exists []. rewrite app_nil_r. split; [reflexivity | cbn; lia].
    + destruct (start_point s) as [p0 |] eqn:Hstart.
      * rewrite (handle_point_addition_second _ _ s p0) by congruence.
        eexists. split; [reflexivity | cbn; lia].
      * rewrite handle_point_addition_first by congruence.
        exists []. rewrite app_nil_r. split; [reflexivity | cbn; lia].
    + destruct (start_point s) as [p0 |] eqn:Hstart.
      * rewrite (handle_point_addition_second _ _ s p0) by congruence.
        eexists. split; [reflexivity | cbn; lia].
      * rewrite handle_point_addition_first by congruence.
        exists []. rewrite app_nil_r. split; [reflexivity | cbn; lia].
  - rewrite (display_fails w s e Hfig).
    exists []. rewrite app_nil_r. split; [reflexivity | cbn; lia].
Qed.

(** ** Background removal across runs *)



(** ** The "Save Image with Annotations" button *)

(** Whether "Save Image with Annotations" is down or up makes no difference
    to the session state a run leaves nor to how the run ends. *)
Theorem save_button_changes_no_state (b : bool) (w : Widgets) (s : SessionState) :
  st (main (set_save_button b w) s) = st (main w s) /\
  res (main (set_save_button b w) s) = res (main w s).
Proof.
  unfold main. cbn [set_save_button file_uploader].
  destruct (file_uploader w) as [f |]; [| split; reflexivity].
  assert (Hbody : st (process_upload (set_save_button b w) f s) = st (process_upload w f s) /\
                  res (process_upload (set_save_button b w) f s) = res (process_upload w f s)).
  { destruct (Image_open f) as [im | e] eqn:Hopen.
    - rewrite !(st_process_upload _ f im s Hopen), !(res_process_upload _ f im s Hopen).
      change (before_display (set_save_button b w) f im s) with (before_display w f im s).
      change (display_image_with_drawing_tools (set_save_button b w))
        with (display_image_with_drawing_tools w).
      split; [reflexivity |].
      destruct (res (display_image_with_drawing_tools w (before_display w f im s)));
        [| reflexivity].
      rewrite !download_buttons_run. reflexivity.
    - unfold process_upload. rewrite !res_bind, !st_bind.
      rewrite (verify_and_convert_image_failed f e s Hopen). split; reflexivity. }
  destruct Hbody as [Hst Hres].
  rewrite !st_try_except, !res_try_except, Hst, Hres. split; reflexivity.
Qed.

(** A run with "Save Image with Annotations" down (and "Add Point" up) always
    offers the export for download: the image is loaded by then, so
    [get_annotated_image] does not fail.  The export holds the active image
    and one line for each drawing, at 300 dpi. *)
Theorem save_offers_the_export
    (w : Widgets) (f : UploadedFile) (im : Image) (s : SessionState) :
  file_uploader w = Some f ->
  Image_open f = Returns im ->
  add_point_button w = false ->
  save_button w = true ->
  exists img,
    active_image (before_display w f im s) = Some img /\
    In (download_button "Download Annotated Image"
          (savefig {| figsize := None;
                      artists := imshow img :: axis_off ::
                                 redraw_all_annotations
                                   (drawings (before_display w f im s)) |} 300)
          "annotated_image.png" "image/png")
       (out (main w s)).
Proof.
  intros Hf Hopen Hadd Hsave.
  destruct (before_display_active w f im s) as [img Himg].
  exists img. split; [exact Himg |].
  destruct (out_main_opened w f s Hf) as [tail ->].
  apply in_or_app. left.
  rewrite (out_process_upload w f im s Hopen).
  destruct (display_without_add_point w (before_display w f im s) Hadd) as [Hst Hres].
  rewrite Hres, Hst.
  apply in_or_app. right. apply in_or_app. right.
  rewrite download_buttons_run. cbn [out]. rewrite Hsave.
  unfold export_figure. rewrite Himg. cbn [ax_imshow result_bind].
  apply in_or_app. left. left. reflexivity.
Qed.

(** ** The display does not fail *)


(** ** What a run never drops *)

(** A run with "Clear All Annotations" up keeps every drawing in place and
    adds at most one at the end, unless it ends in the error handler: then it
    shows "Error processing image" and the drawings are reset. *)
Theorem run_keeps_drawings (w : Widgets) (s : SessionState) :
  clear_all_button w = false ->
  (exists new, drawings (st (main w s)) = (drawings s ++ new)%list /\
               (List.length new <= 1)%nat) \/
  (exists e, In (st_error ("Error processing image: " ++ e)) (out (main w s)) /\
             drawings (st (main w s)) = []).
Proof.
  intros Hclear. unfold main.
  destruct (file_uploader w) as [f |];
    [| left; exists []; rewrite app_nil_r; split; [reflexivity | cbn; lia]].
  rewrite st_try_except, out_try_except.
  destruct (res (process_upload w f s)) as [a | [msg |]] eqn:Hres.
  1, 3: left.
  1, 2: destruct (Image_open f) as [im | e] eqn:Hopen;
    [ rewrite (st_process_upload w f im s Hopen);
      replace (drawings s) with (drawings (before_display w f im s))
        by (rewrite before_display_eq, Hclear; cbv zeta;
            destruct (remove_background_button w);
            [destruct (remove (verified im)) |]; reflexivity);
      apply display_appends
    | unfold process_upload; rewrite st_bind;
      rewrite (verify_and_convert_image_failed f e s Hopen); cbn [res st];
      exists []; rewrite app_nil_r; split; [reflexivity | cbn; lia] ].
  right. exists msg. split; [| reflexivity].
  apply in_or_app. right. left. reflexivity.
Qed.

(** ** A gesture through two runs of [main] *)

(** Two clicks on "Add Point", with the radio on line or measure and the
    same upload: the first run keeps the slider position as the start point,
    the second appends the line from there to the new slider position and
    asks for a rerun, and the rerun leaves it in place.  The line is a
    measurement exactly when the radio is on measure at the second click;
    its colour and width come from the session keys. *)
Theorem two_points_draw_a_line
    (B : Z) (w1 w2 : Widgets) (f : UploadedFile) (im : Image) (s : SessionState) :
  file_uploader w1 = Some f ->
  file_uploader w2 = Some f ->
  Image_open f = Returns im ->
  add_point_press w1 ->
  add_point_press w2 ->
  annotation_tools_radio w1 <> select ->
  annotation_tools_radio w2 <> select ->
  B <= 2 ^ 21 ->
  drawn_within B s ->
  start_point s = None ->
  (forall bg, bg_removed_image s = Some bg -> exists data, save_png bg = Returns data) ->
  let s1 := session [w1] s in
  let s2 := session [w1; w2] s in
  start_point s1 = Some (x_slider w1, y_slider w1) /\
  drawings s1 = drawings s /\
  drawings s2 =
    (drawings s ++
     [{| type := "line";
         x0 := x_slider w1; y0 := y_slider w1;
         x1 := x_slider w2; y1 := y_slider w2;
         color := match color_key s with Some c => c | None => "#FF0000" end;
         width := match line_width_key s with Some lw => lw | None => 2 end;
         measure_flag := Tool_eqb (annotation_tools_radio w2) measure |}])%list /\
  start_point s2 = None /\
  current_tool s2 = annotation_tools_radio w2.
Proof.
  intros Hf1 Hf2 Hopen (Hrm1 & Hclear1 & Hadd1) (Hrm2 & Hclear2 & Hadd2)
    Htool1 Htool2 HB Hs Hstart Hpng s1 s2.
  (* the first click *)
  assert (Hsd1 : before_display w1 f im s = loaded w1 f im s)
    by (apply before_display_plain; assumption).
  destruct (display_figure_returns B (loaded w1 f im s) (copy (verified im)) HB)
    as (arts & Harts & Hfig); [rewrite <- Hsd1; apply before_display_within, Hs
                              | reflexivity |].
  assert (Hd1 : display_image_with_drawing_tools w1 (loaded w1 f im s) =
                mkRun (Ok tt)
                  (set_start_point (Some (x_slider w1, y_slider w1)) (loaded w1 f im s))
                  [st_pyplot {| figsize := Some (10, 10);
                                artists := imshow (copy (verified im)) :: axis_off :: arts |};
                   st_success ("Start point set at (" ++ str_int (x_slider w1) ++ ", "
                               ++ str_int (y_slider w1) ++ ")")])
    by (apply display_first_point; [exact Hfig | exact Hadd1 | exact Htool1 | exact Hstart]).
  assert (Hi1 : interaction w1 s =
                set_start_point (Some (x_slider w1, y_slider w1)) (loaded w1 f im s)).
  { unfold interaction. cbv zeta.
    rewrite (main_opened_returns w1 f im s Hf1 Hopen);
      rewrite Hsd1, Hd1; [reflexivity | reflexivity |].
    cbn [st]. intros bg Hbg. apply Hpng. exact Hbg. }
  (* the second click *)
  set (sa := set_start_point (Some (x_slider w1, y_slider w1)) (loaded w1 f im s)) in *.
  assert (Hsd2 : before_display w2 f im sa = loaded w2 f im sa)
    by (apply before_display_plain; assumption).
  assert (Hd2 : display_image_with_drawing_tools w2 (loaded w2 f im sa) =
                mkRun (Raised RerunException)
                  (set_start_point None
                     (set_drawings
                        (drawings (loaded w2 f im sa) ++
                         [completed (loaded w2 f im sa) (x_slider w1, y_slider w1)
                            (x_slider w2, y_slider w2)])
                        (loaded w2 f im sa)))
                  [st_pyplot {| figsize := Some (10, 10);
                                artists := imshow (copy (verified im)) :: axis_off :: arts |}])
    by (apply display_second_point; [exact Hfig | exact Hadd2 | exact Htool2 | reflexivity]).
  set (sb := set_start_point None
               (set_drawings
                  (drawings (loaded w2 f im sa) ++
                   [completed (loaded w2 f im sa) (x_slider w1, y_slider w1)
                      (x_slider w2, y_slider w2)])
                  (loaded w2 f im sa))) in *.
  assert (Hi2 : interaction w2 sa = loaded (release_buttons w2) f im sb).
  { unfold interaction. cbv zeta.
    rewrite (main_opened_reruns w2 f im sa Hf2 Hopen); rewrite Hsd2, Hd2; [| reflexivity].
    cbn [res st].
    apply (main_quiet (release_buttons w2) f im sb); try reflexivity; assumption. }
  assert (Hs1 : s1 = sa) by (subst s1; cbn [session fold_left]; exact Hi1).
  assert (Hs2 : s2 = loaded (release_buttons w2) f im sb)
    by (subst s2; cbn [session fold_left]; rewrite Hi1; exact Hi2).
  rewrite Hs1, Hs2. repeat split.
Qed.

(** ** Every drawing is drawn *)

Lemma redraw_all_annotations_lines (ds : list Drawing) :
  Forall (fun d => type d = "line") ds ->
  redraw_all_annotations ds = map line_of ds.
Proof.
  intros H. induction H as [| d ds Hd _ IH]; [reflexivity |].
  cbn [redraw_all_annotations map]. rewrite Hd, IH. reflexivity.
Qed.

Lemma draw_existing_annotations_labels (ds : list Drawing) :
  Forall (fun d => type d = "line") ds ->
  forall arts,
    draw_existing_annotations ds = Returns arts ->
    List.length (filter is_text arts) = List.length (filter measure_flag ds).
Proof.
  intros H. induction H as [| d ds Hd _ IH]; intros arts Harts; cbn in Harts.
  - injection Harts as <-. reflexivity.
  - rewrite Hd in Harts. cbn [String.eqb] in Harts.
    replace ("line" =? "line")%string with true in Harts by reflexivity.
    destruct (draw_existing_annotations ds) as [later | msg].
    + specialize (IH later eq_refl). cbn [filter].
      destruct (measure_flag d).
      * unfold measurement_text in Harts.
        destruct (true_div_2 (x0 d + x1 d)); cbn in Harts; [| discriminate].
        destruct (true_div_2 (y0 d + y1 d)); cbn in Harts; [| discriminate].
        destruct (pow_half (squared_distance d)); cbn in Harts; [| discriminate].
        injection Harts as <-. cbn. rewrite IH. reflexivity.
      * cbn in Harts. injection Harts as <-. cbn. exact IH.
    + destruct (measure_flag d); [destruct (measurement_text d) |];
        cbn in Harts; discriminate.
Qed.

Lemma handle_point_addition_all_lines (x y : Z) :
  preserves all_lines (handle_point_addition x y).
Proof.
  unfold handle_point_addition. preserve.
  - unfold all_lines in *. cbn.
    apply Forall_app. split; [assumption |].
    constructor; [reflexivity | constructor].
  - assumption.
  - assumption.
Qed.

Lemma main_all_lines (w : Widgets) : preserves all_lines (main w).
Proof.
  unfold main, process_upload, verify_and_convert_image, load_image, remove_background,
    tool_selection, clear_all_annotations, display_image_with_drawing_tools,
    download_buttons, get_annotated_image, reset_session_state.
  preserve;
    try (apply handle_point_addition_all_lines; assumption);
    try (unfold all_lines in *; cbn; solve [assumption | constructor]).
Qed.

Lemma session_all_lines (ws : list Widgets) :
  forall s, all_lines s -> all_lines (session ws s).
Proof.
  induction ws as [| w ws IH]; intros s H; cbn.
  - exact H.
  - apply IH. unfold interaction.
    pose proof (main_all_lines w s H) as H1.
    destruct (res (main w s)) as [a | [msg |]]; try exact H1.
    apply main_all_lines, H1.
Qed.

(** In every session from the initial state, every drawing has the type
    ['line'], so neither loop skips one: the displayed figure holds, after
    the image and the axis, the line of every drawing in order and one label
    for each measurement; the exported figure holds exactly the lines. *)
Theorem session_shows_every_drawing (ws : list Widgets) :
  let s := session ws initial_session_state in
  all_lines s /\
  (forall shown,
     display_figure s = Returns shown ->
     exists img arts,
       artists shown = imshow img :: axis_off :: arts /\
       filter (fun a => negb (is_text a)) arts = map line_of (drawings s) /\
       List.length (filter is_text arts) =
       List.length (filter measure_flag (drawings s))) /\
  (forall saved,
     export_figure s = Returns saved ->
     exists img,
       artists saved = imshow img :: axis_off :: map line_of (drawings s)).
Proof.
  intros s.
  assert (Hlines : all_lines s)
    by (apply session_all_lines; constructor).
  split; [exact Hlines | split].
  - intros shown Hshown. unfold display_figure in Hshown.
    destruct (active_image s) as [img |]; cbn in Hshown; [| discriminate].
    destruct (draw_existing_annotations (drawings s)) as [arts | msg] eqn:Harts;
      cbn in Hshown; [| discriminate].
    injection Hshown as <-. exists img, arts.
    split; [reflexivity | split].
    + rewrite (draw_existing_annotations_lines _ _ Harts).
      apply redraw_all_annotations_lines, Hlines.
    + apply draw_existing_annotations_labels; [exact Hlines | exact Harts].
  - intros saved Hsaved. unfold export_figure in Hsaved.
    destruct (active_image s) as [img |]; cbn in Hsaved; [| discriminate].
    injection Hsaved as <-. exists img. cbn [artists].
    rewrite redraw_all_annotations_lines by exact Hlines. reflexivity.
Qed.

(** ** Annotations only on an image *)

(** The display block leaves the active image as it is. *)
Lemma display_keeps_active_image (w : Widgets) (s : SessionState) :
  active_image (st (display_image_with_drawing_tools w s)) = active_image s.
Proof.
  destruct (display_figure s) as [fig | e] eqn:Hfig.
  - rewrite (display_shows w s fig Hfig).
    destruct (add_point_button w); [| reflexivity]. cbn [st].
    destruct (current_tool s) eqn:Htool.
    + rewrite handle_point_addition_select by exact Htool. reflexivity.
    + destruct (start_point s) as [p0 |] eqn:Hstart.
      * rewrite (handle_point_addition_second _ _ s p0) by congruence. reflexivity.
      * rewrite handle_point_addition_first by congruence. reflexivity.
    + destruct (start_point s) as [p0 |] eqn:Hstart.
      * rewrite (handle_point_addition_second _ _ s p0) by congruence. reflexivity.
      * rewrite handle_point_addition_first by congruence. reflexivity.
  - rewrite (display_fails w s e Hfig). reflexivity.
Qed.

Lemma main_blank_without_image (w : Widgets) (s : SessionState) :
  blank_without_image s -> blank_without_image (st (main w s)).
Proof.
  intros Hs. unfold main.
  destruct (file_uploader w) as [f |]; [| exact Hs].
  rewrite st_try_except.
  destruct (res (process_upload w f s)) as [a | [msg |]] eqn:Hres.
  1, 3: destruct (Image_open f) as [im | e] eqn:Hopen;
    [ rewrite (st_process_upload w f im s Hopen); intros Hnone;
      rewrite display_keeps_active_image in Hnone;
      destruct (before_display_active w f im s) as [img Himg]; congruence
    | unfold process_upload; rewrite st_bind;
      rewrite (verify_and_convert_image_failed f e s Hopen); exact Hs ].
  intros _. repeat split.
Qed.


End Properties.




(** * The script on the sample collaborators *)

#[local] Existing Instance Sample.collaborators.

(** C1, at a measurement from (0, 0) to (3, 4): the run that saves shows a
    figure with the line and its label ["5.0 px"], and hands the download
    button a figure with the line alone. *)
Theorem export_omits_measurement_label :
  let im := Sample.photo_image in
  out (main (Sample.save_image (Sample.page Sample.photo select "#FF0000" 2))
            Sample.measured) =
  [sidebar_image im "Original Image";
   st_pyplot
     {| figsize := Some (10, 10);
        artists := [imshow im; axis_off;
                    Line2D (0, 3) (0, 4) "#FF0000" 2;
                    text (nearest_float 3 (-1)) (nearest_float 4 (-1))
                         "5.0 px" "#FF0000" 12] |};
   download_button "Download Annotated Image"
     (savefig {| figsize := None;
                 artists := [imshow im; axis_off;
                             Line2D (0, 3) (0, 4) "#FF0000" 2] |} 300)
     "annotated_image.png" "image/png"].
Proof. vm_compute. reflexivity. Qed.

(** C2, with the colour picker on green and the width slider on 5: the line
    the two points complete is red and two wide. *)
Theorem picked_color_and_width_are_not_used :
  drawings
    (session [Sample.add_point (Sample.page Sample.photo line "#00FF00" 5) 10 10;
              Sample.add_point (Sample.page Sample.photo line "#00FF00" 5) 10 20]
             initial_session_state) =
  [{| type := "line"; x0 := 10; y0 := 10; x1 := 10; y1 := 20;
      color := "#FF0000"; width := 2; measure_flag := false |}].
Proof. vm_compute. reflexivity. Qed.



Lemma submissions_pair_up_witness :
  let es := [SubmitPoint 1 1; SetTool measure; SubmitPoint 2 2; SubmitPoint 5 5] in
  let s := set_current_tool line initial_session_state in
  let s' := steps es s in
  List.length (drawings s') = (List.length (drawings s) + submissions es / 2)%nat /\
  (Nat.odd (submissions es) = true -> start_point s' <> None) /\
  (Nat.even (submissions es) = true -> start_point s' = None).
Proof.
  apply (@submissions_pair_up Sample.collaborators
           [SubmitPoint 1 1; SetTool measure; SubmitPoint 2 2; SubmitPoint 5 5]
           (set_current_tool line initial_session_state)).
  - reflexivity.
  - discriminate.
  - reflexivity.
Defined.

Lemma submit_in_select_is_noop_witness :
  let r := handle_point_addition 7 9 Sample.in_progress_select in
  drawings (st r) = drawings Sample.in_progress_select /\
  start_point (st r) = start_point Sample.in_progress_select /\
  st r = Sample.in_progress_select /\ res r = Ok tt /\ out r = [].
Proof.
  apply (@submit_in_select_is_noop Sample.collaborators 7 9 Sample.in_progress_select).
  reflexivity.
Defined.

Lemma failed_removal_keeps_state_witness :
  let image := Sample.wall_image in
  let r := remove_background image Sample.in_progress in
  st r = Sample.in_progress /\
  active_image (st r) = active_image Sample.in_progress /\
  drawings (st r) = drawings Sample.in_progress /\
  out r = [st_error ("Background removal failed: " ++ "no subject found")] /\
  res r = Ok tt.
Proof.
  apply (@failed_removal_keeps_state Sample.collaborators
           Sample.wall_image
           Sample.in_progress "no subject found").
  reflexivity.
Defined.


Lemma tool_at_completion_decides_witness :
  let s := initial_session_state in
  let wes := [Choose measure; SubmitWhileSelect 3 3; Choose line] in
  let started := steps ([SetTool line; SubmitPoint 10 10] ++ flat_map waiting wes) s in
  let s' := steps [SetTool measure; SubmitPoint 10 20] started in
  start_point started = Some (10, 10) /\
  drawings started = drawings s /\
  drawings s' =
    (drawings s ++
     [{| type := "line"; x0 := 10; y0 := 10; x1 := 10; y1 := 20;
         color := match color_key s with Some c => c | None => "#FF0000" end;
         width := match line_width_key s with Some w => w | None => 2 end;
         measure_flag := Tool_eqb measure measure |}])%list /\
  start_point s' = None /\
  (line = line -> measure = measure ->
   exists d, drawings s' = (drawings s ++ [d])%list /\ measure_flag d = true).
Proof.
  apply (@tool_at_completion_decides Sample.collaborators initial_session_state line measure 10 10 10 20
           [Choose measure; SubmitWhileSelect 3 3; Choose line]).
  - reflexivity.
  - discriminate.
  - discriminate.
Defined.


(** Instances of the theorems on runs. *)

Lemma second_point_completes_drawing_witness :
  let s := Sample.in_progress in
  let r := handle_point_addition 7 9 s in
  drawings (st r) =
    (drawings s ++
     [{| type := "line"; x0 := 5; y0 := 5; x1 := 7; y1 := 9;
         color := match color_key s with Some c => c | None => "#FF0000" end;
         width := match line_width_key s with Some w => w | None => 2 end;
         measure_flag := Tool_eqb (current_tool s) measure |}])%list /\
  start_point (st r) = None /\
  current_tool (st r) = current_tool s /\
  active_image (st r) = active_image s /\
  res r = Raised RerunException /\
  out r = [].
Proof.
  apply (@second_point_completes_drawing Sample.collaborators 7 9 5 5 Sample.in_progress).
  - vm_compute. discriminate.
  - vm_compute. reflexivity.
Defined.

Lemma first_point_starts_gesture_witness :
  let s := set_current_tool line initial_session_state in
  let r := handle_point_addition 7 9 s in
  st r = set_start_point (Some (7, 9)) s /\
  drawings (st r) = drawings s /\
  res r = Ok tt /\
  out r = [st_success ("Start point set at (" ++ str_int 7 ++ ", " ++ str_int 9 ++ ")")].
Proof.
  apply (@first_point_starts_gesture Sample.collaborators 7 9
           (set_current_tool line initial_session_state)).
  - discriminate.
  - reflexivity.
Defined.

Lemma export_is_display_without_labels_witness :
  exists saved,
    export_figure Sample.measured = Returns saved /\
    artists saved =
      filter (fun a => negb (is_text a))
        [@imshow Sample.collaborators Sample.photo_image; axis_off;
         Line2D (0, 3) (0, 4) "#FF0000" 2;
         text (nearest_float 3 (-1)) (nearest_float 4 (-1)) "5.0 px" "#FF0000" 12] /\
    forallb (fun a => negb (is_text a)) (artists saved) = true.
Proof.
  apply (@export_is_display_without_labels Sample.collaborators Sample.measured
           {| figsize := Some (10, 10);
              artists := [@imshow Sample.collaborators Sample.photo_image; axis_off;
                          Line2D (0, 3) (0, 4) "#FF0000" 2;
                          text (nearest_float 3 (-1)) (nearest_float 4 (-1))
                               "5.0 px" "#FF0000" 12] |}).
  vm_compute. reflexivity.
Defined.

Lemma clear_all_run_empties_witness :
  drawings (st (main (Sample.clear_click (Sample.page Sample.photo line "#FF0000" 2))
                     Sample.in_progress)) = [] /\
  start_point (st (main (Sample.clear_click (Sample.page Sample.photo line "#FF0000" 2))
                        Sample.in_progress)) = None.
Proof.
  apply (@clear_all_run_empties Sample.collaborators
           (Sample.clear_click (Sample.page Sample.photo line "#FF0000" 2))
           Sample.photo Sample.photo_image Sample.in_progress);
    reflexivity.
Defined.

Lemma failed_removal_run_witness :
  let w := Sample.remove_bg_click (Sample.page Sample.wall line "#FF0000" 2) in
  let w' := Sample.page Sample.wall line "#FF0000" 2 in
  st (main w Sample.in_progress) = st (main w' Sample.in_progress) /\
  res (main w Sample.in_progress) = res (main w' Sample.in_progress) /\
  In (st_error ("Background removal failed: " ++ "no subject found"))
     (out (main w Sample.in_progress)).
Proof.
  apply (@failed_removal_run Sample.collaborators
           (Sample.remove_bg_click (Sample.page Sample.wall line "#FF0000" 2))
           (Sample.page Sample.wall line "#FF0000" 2)
           Sample.wall Sample.wall_image Sample.in_progress "no subject found");
    reflexivity.
Defined.

Lemma main_error_resets_witness :
  let w := Sample.page Sample.print line "#FF0000" 2 in
  st (main w Sample.removed) =
    st (reset_session_state (loaded w Sample.print Sample.print_image Sample.removed)) /\
  In (st_error ("Error processing image: " ++ "cannot write mode CMYK as PNG"))
     (out (main w Sample.removed)).
Proof.
  apply (@main_error_resets Sample.collaborators
           (Sample.page Sample.print line "#FF0000" 2)
           Sample.print Sample.print_image Sample.print_image
           Sample.removed "cannot write mode CMYK as PNG");
    reflexivity.
Defined.



(** Instances of the theorems on whole runs of [main]. *)

Lemma unreadable_upload_changes_nothing_witness :
  main (Sample.clear_click (Sample.page Sample.broken line "#FF0000" 2)) Sample.in_progress =
  mkRun (Ok tt) Sample.in_progress
    [st_error ("Invalid image file: " ++ "cannot identify image file");
     st_error "Invalid image file"].
Proof.
  apply (@unreadable_upload_changes_nothing Sample.collaborators
           (Sample.clear_click (Sample.page Sample.broken line "#FF0000" 2))
           Sample.broken "cannot identify image file" Sample.in_progress);
    reflexivity.
Defined.



Lemma save_offers_the_export_witness :
  let w := Sample.save_image (Sample.page Sample.photo measure "#FF0000" 2) in
  exists img,
    active_image (before_display w Sample.photo Sample.photo_image Sample.measured) =
    Some img /\
    In (download_button "Download Annotated Image"
          (savefig {| figsize := None;
                      artists := imshow img :: axis_off ::
                                 redraw_all_annotations
                                   (drawings (before_display w Sample.photo
                                                Sample.photo_image Sample.measured)) |} 300)
          "annotated_image.png" "image/png")
       (out (main w Sample.measured)).
Proof.
  apply (@save_offers_the_export Sample.collaborators
           (Sample.save_image (Sample.page Sample.photo measure "#FF0000" 2))
           Sample.photo Sample.photo_image Sample.measured);
    reflexivity.
Defined.


Lemma run_keeps_drawings_witness :
  let w := Sample.add_point (Sample.page Sample.photo line "#FF0000" 2) 9 9 in
  (exists new, drawings (st (main w Sample.in_progress)) =
               (drawings Sample.in_progress ++ new)%list /\
               (List.length new <= 1)%nat) \/
  (exists e, In (st_error ("Error processing image: " ++ e))
                (out (main w Sample.in_progress)) /\
             drawings (st (main w Sample.in_progress)) = []).
Proof.
  apply (@run_keeps_drawings Sample.collaborators
           (Sample.add_point (Sample.page Sample.photo line "#FF0000" 2) 9 9)
           Sample.in_progress).
  reflexivity.
Defined.

Lemma two_points_draw_a_line_witness :
  let w1 := Sample.add_point (Sample.page Sample.photo line "#FF0000" 2) 10 20 in
  let w2 := Sample.add_point (Sample.page Sample.photo measure "#FF0000" 2) 40 60 in
  let s1 := session [w1] initial_session_state in
  let s2 := session [w1; w2] initial_session_state in
  start_point s1 = Some (10, 20) /\
  drawings s1 = [] /\
  drawings s2 =
    [{| type := "line"; x0 := 10; y0 := 20; x1 := 40; y1 := 60;
        color := "#FF0000"; width := 2; measure_flag := true |}] /\
  start_point s2 = None /\
  current_tool s2 = measure.
Proof.
  apply (@two_points_draw_a_line Sample.collaborators 640
           (Sample.add_point (Sample.page Sample.photo line "#FF0000" 2) 10 20)
           (Sample.add_point (Sample.page Sample.photo measure "#FF0000" 2) 40 60)
           Sample.photo Sample.photo_image initial_session_state);
    [ reflexivity | reflexivity | reflexivity
    | repeat split | repeat split
    | discriminate | discriminate
    | vm_compute; discriminate
    | split; [constructor | exact I]
    | reflexivity
    | intros bg Hbg; discriminate Hbg ].
Defined.

